(** * TCS3472 colour-sensor driver (periph, experimental/devices/tcs3472)

    A shallow embedding of the driver and of the command-line utility
    experimental/cmd/tcs3472, with the properties of the specification
    stated and proved over it.

    The repository holds several revisions of the driver file:
    - [Tcs3472] embeds the complete driver (first document of
      src/unnamed/part_001: MeasureRaw, SetGain and Halt talk to the bus),
      the one the specification describes;
    - [Tcs3472Prev] embeds the functions of
      src/experimental/devices/tcs3472/tcs3472.go that differ from it
      (Halt and SetGain are stubs, Measure reads the channels inline).
    New, SetIntegrationTime, MaxCount and Valid are the same text in both.
    - [Tcs3472Skeleton] embeds the first skeleton (src/unnamed/part_000),
      where New only checks the chip ID and Halt and Measure do nothing.
    The second skeleton (second document of part_001) does the same over a
    raw connection and is not embedded. *)

From Stdlib Require Import ZArith List String Ascii Bool Lia.
From Stdlib Require Import Floats.SpecFloat.
Import ListNotations.
Local Open Scope Z_scope.

(** ** Go's fixed-width unsigned conversions *)

Definition uint8 (z : Z) : Z := z mod 2 ^ 8.
Definition uint16 (z : Z) : Z := z mod 2 ^ 16.
Definition uint32 (z : Z) : Z := z mod 2 ^ 32.

(** ** package time: a Duration is a count of nanoseconds *)

Module time.
Definition Duration := Z.
Definition Nanosecond : Duration := 1.
Definition Microsecond : Duration := 1000 * Nanosecond.
Definition Millisecond : Duration := 1000 * Microsecond.
Definition Second : Duration := 1000 * Millisecond.
Definition Nanoseconds (d : Duration) : Z := d.
End time.

(** ** float32 arithmetic (IEEE 754 binary32: 24-bit significand, emax 128) *)

Definition float32 := spec_float.
Definition float32_zero : float32 := S754_zero false.

(** float32(x) for an unsigned 16-bit x: every such integer is representable. *)
Definition float32_of_uint16 (x : Z) : float32 := binary_normalize 24 128 x 0 false.

(** x / y on float32, rounded to nearest even. *)
Definition float32_div (x y : float32) : float32 := SFdiv 24 128 x y.

(** float32(x) holds x itself: zero, or a normal number m * 2^e, e <= 0,
    with m = x * 2^(-e). *)
Definition float32_holds (x : Z) (f : float32) : bool :=
  match f with
  | S754_zero false => x =? 0
  | S754_finite false m e =>
    (e <=? 0) && (Z.pos m =? x * 2 ^ (- e)) && (2 ^ 23 <=? Z.pos m) && (Z.pos m <? 2 ^ 24)
  | _ => false
  end.

(** [float32_holds] checked on the n integers from x upwards. *)
Fixpoint float32_holds_from (n : nat) (x : Z) : bool :=
  match n with
  | O => true
  | S n' => float32_holds x (float32_of_uint16 x) && float32_holds_from n' (x + 1)
  end.

(** f is the float32 nearest to num/den: a positive normal number m * 2^e
    with a 24-bit significand, within half a unit in the last place. *)
Definition nearest_float32 (num den : Z) (f : float32) : Prop :=
  match f with
  | S754_finite false m e =>
    2 ^ 23 <= Z.pos m < 2 ^ 24 /\ e <= 0 /\
    2 * Z.abs (Z.pos m * den - num * 2 ^ (- e)) <= den
  | _ => False
  end.

(** 1.0 as a float32. *)
Definition float32_one : float32 := S754_finite false 8388608 (-23).

(** The same float32 value, bit for bit. *)
Definition float32_same (x y : float32) : bool :=
  match x, y with
  | S754_zero s, S754_zero t => Bool.eqb s t
  | S754_infinity s, S754_infinity t => Bool.eqb s t
  | S754_nan, S754_nan => true
  | S754_finite s m e, S754_finite t n f => Bool.eqb s t && (m =? n)%positive && (e =? f)
  | _, _ => false
  end.

(** x / x = 1.0 checked on the n integers from x upwards. *)
Fixpoint self_ratio_from (n : nat) (x : Z) : bool :=
  match n with
  | O => true
  | S n' =>
    float32_same (float32_div (float32_of_uint16 x) (float32_of_uint16 x)) float32_one
    && self_ratio_from n' (x + 1)
  end.

(** An ordinary number that is not negative: +0 or a positive finite
    float32 (not NaN, not an infinity). *)
Definition float32_ordinary (f : float32) : bool :=
  match f with
  | S754_zero false => true
  | S754_finite false _ _ => true
  | _ => false
  end.

(** A positive float32 with a full 24-bit significand and an exponent
    between -23 and -8: the form of the counts from 1 to 65535. *)
Definition float32_count (f : float32) : bool :=
  match f with
  | S754_finite false m e => (Pos.size m =? 24)%positive && (-23 <=? e) && (e <=? -8)
  | _ => false
  end.

(** [float32_count] checked on the n integers from x upwards. *)
Fixpoint float32_count_from (n : nat) (x : Z) : bool :=
  match n with
  | O => true
  | S n' => float32_count (float32_of_uint16 x) && float32_count_from n' (x + 1)
  end.

(** A float32 that is at most 1: m * 2^e with e <= 0 and m <= 2^(-e), a
    zero, or anything negative. *)
Definition float32_le_one (f : float32) : bool :=
  match f with
  | S754_zero _ => true
  | S754_finite false m e => (e <=? 0) && (Z.pos m <=? 2 ^ (- e))
  | S754_finite true _ _ => true
  | S754_infinity true => true
  | _ => false
  end.

(** A float32 that is at least 1: m * 2^e with 2^(-e) <= m (or e > 0), or
    +infinity. *)
Definition float32_ge_one (f : float32) : bool :=
  match f with
  | S754_finite false m e => (0 <? e) || (2 ^ (- e) <=? Z.pos m)
  | S754_infinity false => true
  | _ => false
  end.

(** ** Errors *)

(** %x of an unsigned byte, as fmt prints it (lower case, no padding). *)
Definition hexdigit (n : Z) : string :=
  match n with
  | 0 => "0" | 1 => "1" | 2 => "2" | 3 => "3" | 4 => "4" | 5 => "5" | 6 => "6"
  | 7 => "7" | 8 => "8" | 9 => "9" | 10 => "a" | 11 => "b" | 12 => "c"
  | 13 => "d" | 14 => "e" | _ => "f"
  end%string.

Definition hex8 (n : Z) : string :=
  if n <? 16 then hexdigit n else (hexdigit (n / 16) ++ hexdigit (n mod 16))%string.

(** The error values the driver and the utility can see. *)
Inductive error : Type :=
| TransportError (msg : string)   (* whatever the bus transaction reported *)
| ErrIntegrationTime              (* errors.New in SetIntegrationTime *)
| ErrChipID (id : Z).             (* fmt.Errorf in New, carrying the byte read *)

Definition Error (e : error) : string :=
  match e with
  | TransportError msg => msg
  | ErrIntegrationTime => "integration time must be between 2.4 and 612 ms"
  | ErrChipID id => "tcs3472: unexpected chip ID 0x" ++ hex8 id
  end%string.

(** ** The register transport (conn/mmr.Dev8 over an i2c.Dev) *)

Module mmr.

Inductive Op : Type :=
| RdU8 (reg : Z)
| RdU16 (reg : Z)
| WrU8 (reg v : Z).

(** What the device answers: a value (meaningful for reads) and, when the
    transaction failed, the fault. Go returns both. *)
Record Reply : Type := mkReply { val : Z; fault : option string }.

Definition Event : Type := (Op * Reply)%type.

(** Modelled from the spec: the register transport adapter (periph's
    conn/mmr.Dev8 over conn/i2c), which is not among the sources. The spec
    gives its contract: write8(addr, value) succeeds or fails, read8(addr)
    gives a byte or fails, read16(addr) gives a big-endian 16-bit value or
    fails. A bus is an arbitrary deterministic responder (a function of the
    transactions so far and of the current one) together with the log of
    the transactions issued on it. *)
Record Bus : Type := mkBus {
  respond : list Event -> Op -> Reply;
  log : list Event
}.

(** Modelled from the spec: one transaction of the transport. The device
    answers, and the transaction with its answer is appended to the log. *)
Definition Tx (op : Op) (b : Bus) : Reply * Bus :=
  let r := respond b (log b) op in
  (r, mkBus (respond b) (log b ++ [(op, r)])).

Definition to_error (r : Reply) : option error :=
  option_map TransportError (fault r).

Definition ReadUint8 (reg : Z) (b : Bus) : (Z * option error) * Bus :=
  let (r, b') := Tx (RdU8 reg) b in ((uint8 (val r), to_error r), b').

Definition ReadUint16 (reg : Z) (b : Bus) : (Z * option error) * Bus :=
  let (r, b') := Tx (RdU16 reg) b in ((uint16 (val r), to_error r), b').

Definition WriteUint8 (reg v : Z) (b : Bus) : option error * Bus :=
  let (r, b') := Tx (WrU8 reg v) b in (to_error r, b').

(** The operations issued so far, without the replies. *)
Definition ops (b : Bus) : list Op := map fst (log b).

End mmr.

(** ** The driver *)

Module Tcs3472.
Import mmr.

(** Light is a light measurement with intensity and color. *)
Record Light : Type := mkLight { Int : Z; R : float32; G : float32; B : float32 }.

(** RawValues are the raw measurement values: [4]uint16. *)
Definition RawValues : Type := list Z.
Definition RawValues_zero : RawValues := [0; 0; 0; 0].

Definition ClearVal : nat := 0.
Definition RedVal : nat := 1.
Definition GreenVal : nat := 2.
Definition BlueVal : nat := 3.

(** vals[i] and vals[i] = v on a 4-element array (indices are constants
    in the source, always in range). *)
Definition idx (vals : RawValues) (i : nat) : Z := nth i vals 0.

Fixpoint upd (vals : RawValues) (i : nat) (v : Z) : RawValues :=
  match vals, i with
  | [], _ => []
  | _ :: tl, O => v :: tl
  | x :: tl, S j => x :: upd tl j v
  end.

(** Gain is the analog gain of the RGBC measurement: a uint8, of which
    four values are named. Nothing keeps a caller from passing another
    byte. *)
Definition Gain : Type := Z.

Definition G1x : Gain := 0.
Definition G4x : Gain := 1.
Definition G16x : Gain := 2.
Definition G60x : Gain := 3.

Definition chipAddr : Z := 0x29.
Definition chipID : Z := 0x44.
Definition chipIDAlt : Z := 0x4D.

Definition regCmd : Z := 0x80.
Definition cmdAutoIncrement : Z := 0x20.

Definition cmdEnable : Z := Z.lor regCmd 0.
Definition cmdATime : Z := Z.lor regCmd 1.
Definition cmdGain : Z := Z.lor regCmd 0x0f.
Definition cmdChipID : Z := Z.lor regCmd 0x12.
Definition cmdStatus : Z := Z.lor regCmd 0x13.

Definition cmdReadClear : Z := Z.lor (Z.lor regCmd cmdAutoIncrement) 0x14.
Definition cmdReadRed : Z := Z.lor (Z.lor regCmd cmdAutoIncrement) 0x16.
Definition cmdReadGreen : Z := Z.lor (Z.lor regCmd cmdAutoIncrement) 0x18.
Definition cmdReadBlue : Z := Z.lor (Z.lor regCmd cmdAutoIncrement) 0x1a.

Definition enableInterrupt : Z := Z.shiftl 1 4.
Definition enableWait : Z := Z.shiftl 1 3.
Definition enableRGBC : Z := Z.shiftl 1 1.
Definition enablePower : Z := 1.

Definition statusInterrupt : Z := Z.shiftl 1 4.
Definition statusValid : Z := 1.

(** Dev is a handle to a TCS34725 Color Sensor. *)
Record Dev : Type := mkDev { dev : Bus; maxCount : Z }.

(** Methods on *Dev: a result and the handle after the call. *)
Definition M (A : Type) : Type := Dev -> A * Dev.

Definition ret {A} (x : A) : M A := fun d => (x, d).
Definition bind {A C} (c : M A) (k : A -> M C) : M C :=
  fun d => let (x, d') := c d in k x d'.

Notation "x <- c ;; k" := (bind c (fun x => k))
  (at level 61, c at next level, right associativity).
Notation "' p <- c ;; k" := (bind c (fun x => let 'p := x in k))
  (at level 61, p pattern, c at next level, right associativity).

(** d.dev.ReadUint8, d.dev.ReadUint16, d.dev.WriteUint8 *)
Definition devReadUint8 (reg : Z) : M (Z * option error) :=
  fun d => let (r, b) := ReadUint8 reg (dev d) in (r, mkDev b (maxCount d)).
Definition devReadUint16 (reg : Z) : M (Z * option error) :=
  fun d => let (r, b) := ReadUint16 reg (dev d) in (r, mkDev b (maxCount d)).
Definition devWriteUint8 (reg v : Z) : M (option error) :=
  fun d => let (r, b) := WriteUint8 reg v (dev d) in (r, mkDev b (maxCount d)).

(** d.maxCount = v *)
Definition set_maxCount (v : Z) : M unit :=
  fun d => (tt, mkDev (dev d) v).
Definition get_maxCount : M Z := fun d => (maxCount d, d).

(** Halt: disable the power to the device. *)
Definition Halt : M (option error) :=
  devWriteUint8 cmdEnable 0.

(** SetIntegrationTime sets the integration time of measurements. *)
Definition SetIntegrationTime (dur : time.Duration) : M (option error) :=
  if (dur <? 2400 * time.Microsecond) || (dur >? 612 * time.Millisecond) then
    ret (Some ErrIntegrationTime)
  else
    let atime := uint8 (255 - uint8 (Z.quot (time.Nanoseconds dur) 2400000)) in
    _ <- set_maxCount (uint32 (uint32 atime * 1024)) ;;
    mc <- get_maxCount ;;
    _ <- (if mc >? 65535 then set_maxCount 65535 else ret tt) ;;
    err <- devWriteUint8 cmdATime atime ;;
    match err with
    | Some e => ret (Some e)
    | None => ret None
    end.

(** MaxCount returns the max value that can be counted for a channel. *)
Definition MaxCount (d : Dev) : Z := maxCount d.

(** SetGain sets the gain of the light measurement. *)
Definition SetGain (g : Gain) : M (option error) :=
  devWriteUint8 cmdGain (uint8 g).

(** MeasureRaw measures the raw light intensity and color. The results
    are named, so a bare return hands back whatever [vals] holds. *)
Definition MeasureRaw : M (RawValues * option error) :=
  let vals := RawValues_zero in
  '(v, err) <- devReadUint16 cmdReadClear ;;
  let vals := upd vals ClearVal v in
  match err with Some _ => ret (vals, err) | None =>
  '(v, err) <- devReadUint16 cmdReadRed ;;
  let vals := upd vals RedVal v in
  match err with Some _ => ret (vals, err) | None =>
  '(v, err) <- devReadUint16 cmdReadGreen ;;
  let vals := upd vals GreenVal v in
  match err with Some _ => ret (vals, err) | None =>
  '(v, err) <- devReadUint16 cmdReadBlue ;;
  let vals := upd vals BlueVal v in
  match err with Some _ => ret (vals, err) | None =>
  ret (vals, err)
  end end end end.

(** Measure measures the light intensity and color; [l] is the caller's
    Light, handed back as the method leaves it. *)
Definition Measure (l : Light) : M (option error * Light) :=
  '(vals, err) <- MeasureRaw ;;
  match err with
  | Some e => ret (Some e, l)
  | None =>
    let l := mkLight (idx vals ClearVal) (R l) (G l) (B l) in
    let l := mkLight (Int l) (float32_div (float32_of_uint16 (idx vals RedVal))
                                          (float32_of_uint16 (Int l))) (G l) (B l) in
    let l := mkLight (Int l) (R l) (float32_div (float32_of_uint16 (idx vals GreenVal))
                                                (float32_of_uint16 (Int l))) (B l) in
    let l := mkLight (Int l) (R l) (G l) (float32_div (float32_of_uint16 (idx vals BlueVal))
                                                      (float32_of_uint16 (Int l))) in
    ret (None, l)
  end.

(** Valid indicates that the RGBC channels have completed an integration cycle. *)
Definition Valid : M (bool * option error) :=
  '(status, err) <- devReadUint8 cmdStatus ;;
  match err with
  | Some e => ret (false, Some e)
  | None => ret (Z.land status statusValid >? 0, None)
  end.

(** New opens a handle that communicates over I2C with the sensor. The
    bus outlives the call, so it is handed back whether or not a handle
    is. *)
Definition New (b : Bus) : (option Dev * option error) * Bus :=
  let d := mkDev b 0 in
  let '((id, err), d) := devReadUint8 cmdChipID d in
  match err with
  | Some e => ((None, Some e), dev d)
  | None =>
    if negb (id =? chipID) && negb (id =? chipIDAlt) then
      ((None, Some (ErrChipID id)), dev d)
    else
      let '(err, d) := devWriteUint8 cmdEnable (Z.lor enablePower enableRGBC) d in
      match err with
      | Some e => ((None, Some e), dev d)
      | None =>
        let '(err, d) := SetIntegrationTime (511 * time.Millisecond) d in
        match err with
        | Some e => ((None, Some e), dev d)
        | None => ((Some d, None), dev d)
        end
      end
  end.

End Tcs3472.

(** ** The earlier revision of the driver file *)

(** src/experimental/devices/tcs3472/tcs3472.go: the same constants, Dev,
    New, SetIntegrationTime, MaxCount and Valid; these three differ. *)
Module Tcs3472Prev.
Import mmr Tcs3472.

(** Halt implements the Halt method of the devices.Device interface. *)
Definition Halt : M (option error) := ret None.

Definition SetGain (g : Gain) : M (option error) := ret None.

(** Measure measures the light intensity and color; l.Int is assigned by
    the first read itself. *)
Definition Measure (l : Light) : M (option error * Light) :=
  '(v, err) <- devReadUint16 cmdReadClear ;;
  let l := mkLight v (R l) (G l) (B l) in
  match err with Some e => ret (Some e, l) | None =>
  '(r, err) <- devReadUint16 cmdReadRed ;;
  match err with Some e => ret (Some e, l) | None =>
  '(g, err) <- devReadUint16 cmdReadGreen ;;
  match err with Some e => ret (Some e, l) | None =>
  '(b, err) <- devReadUint16 cmdReadBlue ;;
  match err with Some e => ret (Some e, l) | None =>
  let l := mkLight (Int l) (float32_div (float32_of_uint16 r) (float32_of_uint16 (Int l)))
                   (G l) (B l) in
  let l := mkLight (Int l) (R l)
                   (float32_div (float32_of_uint16 g) (float32_of_uint16 (Int l))) (B l) in
  let l := mkLight (Int l) (R l) (G l)
                   (float32_div (float32_of_uint16 b) (float32_of_uint16 (Int l))) in
  ret (None, l)
  end end end end.

End Tcs3472Prev.

(** ** A handle's lifetime: sequences of method calls *)

Module Lifetime.
Import mmr Tcs3472.

Inductive Call : Type :=
| CallSetIntegrationTime (dur : time.Duration)
| CallSetGain (g : Gain)
| CallValid
| CallMeasureRaw
| CallMeasure (l : Light)
| CallHalt
| CallMaxCount.

(** The handle after one call (results dropped). *)
Definition exec (c : Call) (d : Dev) : Dev :=
  match c with
  | CallSetIntegrationTime dur => snd (SetIntegrationTime dur d)
  | CallSetGain g => snd (SetGain g d)
  | CallValid => snd (Valid d)
  | CallMeasureRaw => snd (MeasureRaw d)
  | CallMeasure l => snd (Measure l d)
  | CallHalt => snd (Halt d)
  | CallMaxCount => d
  end.

Definition run (cs : list Call) (d : Dev) : Dev :=
  fold_left (fun d c => exec c d) cs d.

(** The value of an ATIME write, if the event is one; with [acked] set,
    only if the device acknowledged it. *)
Definition atime_write (acked : bool) (ev : Event) : option Z :=
  match ev with
  | (WrU8 reg v, r) =>
    if (reg =? cmdATime) &&
       (negb acked || match fault r with None => true | Some _ => false end)
    then Some v else None
  | _ => None
  end.

(** The value of the last ATIME write in a log. *)
Definition last_atime (acked : bool) (l : list Event) : option Z :=
  fold_left (fun acc ev => match atime_write acked ev with
                           | Some v => Some v
                           | None => acc
                           end) l None.

(** What SetIntegrationTime stores for an ATIME value. *)
Definition storedMaxCount (atime : Z) : Z := Z.min (atime * 1024) 65535.

(** What the comment in SetIntegrationTime documents:
    Max RGBC Count = (256 - ATIME) x 1024 up to a maximum of 65535. *)
Definition documentedMaxCount (atime : Z) : Z := Z.min ((256 - atime) * 1024) 65535.

(** The handle's count follows the last ATIME write in the bus log: the
    last one attempted ([acked] = false) or the last one the device
    acknowledged ([acked] = true). *)
Definition follows_atime (acked : bool) (implied : Z -> Z) (d : Dev) : Prop :=
  exists a, last_atime acked (log (dev d)) = Some a /\ MaxCount d = implied a.

(** A method that neither touches maxCount nor writes ATIME. *)
Definition Quiet {A : Type} (m : M A) : Prop :=
  forall d, maxCount (snd (m d)) = maxCount d /\
            last_atime false (log (dev (snd (m d)))) = last_atime false (log (dev d)).

End Lifetime.

(** ** Simulated sensors, for concrete runs *)

Module Sim.
Import mmr Tcs3472.

Definition ack (v : Z) : Reply := mkReply v None.
Definition nack : Reply := mkReply 0 (Some "i/o error"%string).

(** A sensor that acknowledges everything: the chip-ID and status bytes and
    the four channel counts are the given ones. *)
Definition sensor (id status c r g b : Z) : Bus :=
  mkBus (fun _ op =>
           match op with
           | RdU8 reg =>
             if reg =? cmdChipID then ack id
             else if reg =? cmdStatus then ack status
             else ack 0
           | RdU16 reg =>
             if reg =? cmdReadClear then ack c
             else if reg =? cmdReadRed then ack r
             else if reg =? cmdReadGreen then ack g
             else if reg =? cmdReadBlue then ack b
             else ack 0
           | WrU8 _ _ => ack 0
           end) [].

(** The same bus, except that transaction number [k] (from 0) fails. *)
Definition failing_at (k : nat) (b : Bus) : Bus :=
  mkBus (fun h op => if Nat.eqb (List.length h) k then nack else respond b h op) (log b).

End Sim.

(** ** The command-line utility (experimental/cmd/tcs3472/main.go) *)

Module Cmd.
Import mmr Tcs3472.

(** How a function ends: it returns, or it panics. *)
Inductive Outcome (A : Type) : Type :=
| Done (x : A)
| Panic (msg : string).
Arguments Done {A} x.
Arguments Panic {A} msg.

(** Standard output: one entry per Printf of a reading (the rendering of
    the floats with three decimals is left out). *)
Definition Stdout : Type := list Light.

(** The parsed flags. *)
Record Flags : Type := mkFlags { i2c : string; i : time.Duration; v : bool }.

(** The host the process runs on: what host.Init and i2creg.Open give. *)
Record Host : Type := mkHost {
  hostInit : option error;
  i2cOpen : string -> Bus + error
}.

(** What is left when the process ends. *)
Record Exit : Type := mkExit {
  status : Z;
  stdout : Stdout;
  stderr : list string
}.

Section WithDriver.

(** The two methods of package tcs3472 whose text differs between the
    revisions of the driver. *)
Variable Measure : Light -> M (option error * Light).
Variable Halt : M (option error).

(** The for loop of read. [ticks] is how many times the ticker fires
    while the process is observed; None means it is still polling. *)
Fixpoint poll (ticks : nat) (ticker : bool) (out : Stdout) (d : Dev)
  : option (option error * Stdout * Dev) :=
  let light := mkLight 0 float32_zero float32_zero float32_zero in
  let '((err, light), d) := Measure light d in
  match err with
  | Some e => Some (Some e, out, d)
  | None =>
    let out := out ++ [light] in
    if negb ticker then Some (None, out, d)
    else match ticks with
         | O => None
         | S n => poll n ticker out d
         end
  end.

(** n measurements in a row that all succeed, each into a zeroed Light:
    the readings in order and the handle after the last one; None when one
    of them fails. *)
Fixpoint readings (n : nat) (d : Dev) : option (Stdout * Dev) :=
  match n with
  | O => Some ([], d)
  | S n' =>
    let '((err, light), d) :=
      Measure (mkLight 0 float32_zero float32_zero float32_zero) d in
    match err with
    | Some _ => None
    | None =>
      match readings n' d with
      | Some (out, d) => Some (light :: out, d)
      | None => None
      end
    end
  end.

Definition read (d : Dev) (interval : time.Duration) (ticks : nat)
  : option (Outcome (option error) * Stdout * Dev) :=
  if negb (interval =? 0) && (interval <=? 0) then
    (* time.NewTicker panics unless the interval is positive *)
    Some (Panic "non-positive interval for NewTicker", [], d)
  else
    let ticker := negb (interval =? 0) in
    let '((valid, err), d) := Valid d in
    if negb valid || match err with Some _ => true | None => false end then
      Some (Done err, [], d)
    else
      match poll ticks ticker [] d with
      | None => None
      | Some (err, out, d) => Some (Done err, out, d)
      end.

(** mainImpl, after flag.Parse; the verbose log of the pins is left out.
    The bus is handed back as the process leaves it. *)
Definition mainImpl (f : Flags) (h : Host) (ticks : nat)
  : option (Outcome (option error) * Stdout * option Bus) :=
  match hostInit h with
  | Some e => Some (Done (Some e), [], None)
  | None =>
    match i2cOpen h (i2c f) with
    | inr e => Some (Done (Some e), [], None)
    | inl bus =>
      let '((hd, err), bus) := New bus in
      match hd, err with
      | _, Some e => Some (Done (Some e), [], Some bus)
      | None, None => Some (Panic "nil pointer dereference", [], Some bus)
      | Some dev0, None =>
        match read dev0 (i f) ticks with
        | None => None
        | Some (Panic msg, out, d) => Some (Panic msg, out, Some (dev d))
        | Some (Done err, out, d) =>
          let '(err2, d) := Halt d in
          match err with
          | Some e => Some (Done (Some e), out, Some (dev d))
          | None => Some (Done err2, out, Some (dev d))
          end
        end
      end
    end
  end.

Definition main (f : Flags) (h : Host) (ticks : nat) : option (Exit * option Bus) :=
  match mainImpl f h ticks with
  | None => None
  | Some (Done (Some e), out, bus) =>
    Some (mkExit 1 out [("tcs3472: " ++ Error e ++ "." ++ String "010" "")%string], bus)
  | Some (Done None, out, bus) => Some (mkExit 0 out [], bus)
  | Some (Panic msg, out, bus) => Some (mkExit 2 out [("panic: " ++ msg)%string], bus)
  end.

End WithDriver.

End Cmd.

(** ** The first skeleton of the driver (src/unnamed/part_000) *)

(** New only identifies the chip; Halt and Measure do nothing yet, and a
    Light is four bytes. *)
Module Tcs3472Skeleton.
Import mmr.

Record Dev : Type := mkDev { dev : Bus }.

Record Light : Type := mkLight { Int : Z; R : Z; G : Z; B : Z }.

Definition New (b : Bus) : (option Dev * option error) * Bus :=
  let d := mkDev b in
  let '((id, err), bus) := ReadUint8 Tcs3472.cmdChipID (dev d) in
  let d := mkDev bus in
  match err with
  | Some e => ((None, Some e), dev d)
  | None =>
    if negb (id =? Tcs3472.chipID) && negb (id =? Tcs3472.chipIDAlt) then
      ((None, Some (ErrChipID id)), dev d)
    else ((Some d, None), dev d)
  end.

Definition Halt (d : Dev) : option error * Dev := (None, d).

Definition Measure (l : Light) (d : Dev) : (option error * Light) * Dev :=
  ((None, l), d).

End Tcs3472Skeleton.

(** ** The bus traffic of the driver *)

Module Traffic.
Import mmr Tcs3472 Lifetime.


(** The value of a write to the gain register, if the transaction is one. *)
Definition gain_write (op : Op) : list Z :=
  match op with
  | WrU8 reg v => if reg =? cmdGain then [v] else []
  | _ => []
  end.

(** The values written to the gain register, oldest first. *)
Definition gain_writes (l : list Op) : list Z := flat_map gain_write l.

Definition not_gain (op : Op) : bool :=
  match gain_write op with
  | [] => true
  | _ => false
  end.

(** The gains a sequence of calls hands to SetGain, as the bytes they are. *)
Definition gain_asked (c : Call) : list Z :=
  match c with
  | CallSetGain g => [uint8 g]
  | _ => []
  end.

Definition gains_asked (cs : list Call) : list Z := flat_map gain_asked cs.

Definition is_read (op : Op) : bool :=
  match op with
  | WrU8 _ _ => false
  | _ => true
  end.


(** Every transaction a method adds to the log satisfies P. *)
Definition Emits {A : Type} (P : Op -> bool) (m : M A) : Prop :=
  forall d, exists evs,
      log (dev (snd (m d))) = log (dev d) ++ evs /\
      forallb (fun ev => P (fst ev)) evs = true.

(** The calls that only read. *)
Definition read_only (c : Call) : bool :=
  match c with
  | CallValid | CallMeasureRaw | CallMeasure _ | CallMaxCount => true
  | _ => false
  end.

(** The values maxCount can take: a multiple of 1024 below the cap, or the
    cap. *)
Definition count_shape (mc : Z) : Prop :=
  0 <= mc <= 65535 /\ (mc = 65535 \/ mc mod 1024 = 0).

End Traffic.

(** * Properties *)

Import mmr Tcs3472.

(** ** Register map *)

(** The command bytes are the addresses of the register map. *)
Lemma register_map :
  cmdChipID = 0x92 /\ cmdEnable = 0x80 /\ cmdATime = 0x81 /\ cmdGain = 0x8F /\
  cmdStatus = 0x93 /\ cmdReadClear = 0xB4 /\ cmdReadRed = 0xB6 /\
  cmdReadGreen = 0xB8 /\ cmdReadBlue = 0xBA.
Proof. repeat split; reflexivity. Qed.

(** ** The transport *)

Lemma Tx_log (op : Op) (b : Bus) :
  log (snd (Tx op b)) = log b ++ [(op, fst (Tx op b))].
Proof. reflexivity. Qed.

Lemma Tx_respond (op : Op) (b : Bus) :
  respond (snd (Tx op b)) = respond b.
Proof. reflexivity. Qed.

Lemma to_error_None (r : Reply) : fault r = None -> to_error r = None.
Proof. unfold to_error; intros ->; reflexivity. Qed.

Lemma to_error_Some (r : Reply) (msg : string) :
  fault r = Some msg -> to_error r = Some (TransportError msg).
Proof. unfold to_error; intros ->; reflexivity. Qed.

(** ** SetIntegrationTime *)

Section IntegrationTime.

Variable dur : time.Duration.
Hypothesis in_range : 2400 * time.Microsecond <= dur <= 612 * time.Millisecond.

Lemma steps_bounds : 1 <= dur / 2400000 <= 255.
Proof.
  change (2400000 <= dur <= 612000000) in in_range; split.
  - apply Z.div_le_lower_bound; lia.
  - assert (dur / 2400000 < 256) by (apply Z.div_lt_upper_bound; lia). lia.
Qed.

Lemma guard_passes :
  (dur <? 2400 * time.Microsecond) || (dur >? 612 * time.Millisecond) = false.
Proof.
  apply orb_false_iff; split.
  - apply Z.ltb_ge; tauto.
  - rewrite Z.gtb_ltb; apply Z.ltb_ge; tauto.
Qed.

(** The ATIME code computed in uint8 arithmetic is 255 - floor(dur / 2.4 ms). *)
Lemma atime_code :
  uint8 (255 - uint8 (Z.quot (time.Nanoseconds dur) 2400000)) = 255 - dur / 2400000.
Proof.
  pose proof steps_bounds as Hq. unfold time.Nanoseconds, uint8.
  change (2400000 <= dur <= 612000000) in in_range.
  rewrite Z.quot_div_nonneg by lia.
  rewrite (Z.mod_small (dur / 2400000)) by lia. apply Z.mod_small; lia.
Qed.

(** The count stored for it, after the cap. *)
Lemma count_code :
  (let mc := uint32 (uint32 (255 - dur / 2400000) * 1024) in if mc >? 65535 then 65535 else mc)
  = Z.min ((255 - dur / 2400000) * 1024) 65535.
Proof.
  pose proof steps_bounds as Hq. unfold uint32. cbv zeta.
  rewrite (Z.mod_small (255 - dur / 2400000)) by lia.
  rewrite Z.mod_small by lia.
  rewrite Z.gtb_ltb.
  destruct (Z.ltb_spec 65535 ((255 - dur / 2400000) * 1024)); lia.
Qed.

(** In range, the call is: store the capped count, then write ATIME. *)
Lemma SetIntegrationTime_eq (d : Dev) :
  SetIntegrationTime dur d =
  (to_error (fst (Tx (WrU8 cmdATime (255 - dur / 2400000)) (dev d))),
   mkDev (snd (Tx (WrU8 cmdATime (255 - dur / 2400000)) (dev d)))
         (Z.min ((255 - dur / 2400000) * 1024) 65535)).
Proof.
  unfold SetIntegrationTime. rewrite guard_passes, atime_code.
  unfold bind, set_maxCount, get_maxCount. cbn [maxCount dev].
  pose proof count_code as Hc. cbv zeta in Hc.
  destruct (uint32 (uint32 (255 - dur / 2400000) * 1024) >? 65535);
    unfold ret, devWriteUint8, WriteUint8; cbn [maxCount dev];
    [rewrite <- Hc | rewrite Hc];
    destruct (Tx (WrU8 cmdATime (255 - dur / 2400000)) (dev d)) as [r b']; cbn [fst snd];
    destruct (to_error r); reflexivity.
Qed.

End IntegrationTime.

Lemma SetIntegrationTime_out_of_range (dur : time.Duration) (d : Dev) :
  dur < 2400 * time.Microsecond \/ dur > 612 * time.Millisecond ->
  SetIntegrationTime dur d = (Some ErrIntegrationTime, d).
Proof.
  intros H. unfold SetIntegrationTime.
  replace ((dur <? 2400 * time.Microsecond) || (dur >? 612 * time.Millisecond))
    with true; [reflexivity|].
  symmetry; apply orb_true_iff. destruct H as [H | H].
  - left; apply Z.ltb_lt; exact H.
  - right; rewrite Z.gtb_ltb; apply Z.ltb_lt; lia.
Qed.

(** The two ends of the range. *)
Lemma SetIntegrationTime_612ms (d : Dev) :
  let d' := snd (SetIntegrationTime (612 * time.Millisecond) d) in
  ops (dev d') = ops (dev d) ++ [WrU8 0x81 0] /\ MaxCount d' = 0.
Proof.
  cbv zeta. rewrite SetIntegrationTime_eq by (cbv; split; discriminate).
  cbn [fst snd]. unfold ops, Tx; cbn [log dev fst snd]. rewrite map_app.
  split; reflexivity.
Qed.

Lemma SetIntegrationTime_2400us (d : Dev) :
  let d' := snd (SetIntegrationTime (2400 * time.Microsecond) d) in
  ops (dev d') = ops (dev d) ++ [WrU8 0x81 254] /\ MaxCount d' = 65535.
Proof.
  cbv zeta. rewrite SetIntegrationTime_eq by (cbv; split; discriminate).
  cbn [fst snd]. unfold ops, Tx; cbn [log dev fst snd]. rewrite map_app.
  split; reflexivity.
Qed.

(** C1. For every duration between 2.4 ms and 612 ms, SetIntegrationTime
    writes atime = 255 - floor(ns / 2,400,000) to the ATIME register (0x81),
    returns what that write returned (nil when the device acknowledges it),
    and leaves maxCount = min(atime * 1024, 65535); 612 ms gives atime 0
    and maxCount 0, 2.4 ms gives atime 254 and maxCount 65535. *)
Theorem SetIntegrationTime_in_range :
  (forall (dur : time.Duration) (d : Dev),
      2400 * time.Microsecond <= dur <= 612 * time.Millisecond ->
      let atime := 255 - time.Nanoseconds dur / 2400000 in
      let r := respond (dev d) (log (dev d)) (WrU8 0x81 atime) in
      let d' := snd (SetIntegrationTime dur d) in
      fst (SetIntegrationTime dur d) = to_error r /\
      (fault r = None -> fst (SetIntegrationTime dur d) = None) /\
      log (dev d') = log (dev d) ++ [(WrU8 0x81 atime, r)] /\
      MaxCount d' = Z.min (atime * 1024) 65535) /\
  (forall d : Dev,
      let d' := snd (SetIntegrationTime (612 * time.Millisecond) d) in
      ops (dev d') = ops (dev d) ++ [WrU8 0x81 0] /\ MaxCount d' = 0) /\
  (forall d : Dev,
      let d' := snd (SetIntegrationTime (2400 * time.Microsecond) d) in
      ops (dev d') = ops (dev d) ++ [WrU8 0x81 254] /\ MaxCount d' = 65535).
Proof.
  split; [|split].
  - intros dur d H; cbv zeta. rewrite (SetIntegrationTime_eq dur H d).
    cbn [fst snd]. unfold time.Nanoseconds. change cmdATime with 0x81.
    repeat split.
    + intros Hr. apply to_error_None. exact Hr.
  - exact SetIntegrationTime_612ms.
  - exact SetIntegrationTime_2400us.
Qed.

Lemma SetIntegrationTime_in_range_witness :
  let d := mkDev (Sim.sensor 0x44 0x11 0 0 0 0) 7 in
  let d' := snd (SetIntegrationTime (511 * time.Millisecond) d) in
  2400 * time.Microsecond <= 511 * time.Millisecond <= 612 * time.Millisecond /\
  fst (SetIntegrationTime (511 * time.Millisecond) d) = None /\
  log (dev d') = [(WrU8 0x81 43, Sim.ack 0)] /\
  MaxCount d' = 44032.
Proof.
  intros d d'.
  assert (H : 2400 * time.Microsecond <= 511 * time.Millisecond <= 612 * time.Millisecond)
    by (cbv; split; discriminate).
  destruct (proj1 SetIntegrationTime_in_range (511 * time.Millisecond) d H)
    as (_ & Hok & Hlog & Hmax).
  split; [exact H|]. split; [apply Hok; reflexivity|]. split; [exact Hlog|exact Hmax].
Defined.

(** The period the device runs with is (256 - ATIME) x 2.4 ms: for the
    code written it is the requested duration rounded down to a multiple of
    2.4 ms, plus one step of 2.4 ms. *)
Lemma SetIntegrationTime_period (dur : time.Duration) (d : Dev) :
  2400 * time.Microsecond <= dur <= 612 * time.Millisecond ->
  exists atime r,
    log (dev (snd (SetIntegrationTime dur d))) = log (dev d) ++ [(WrU8 0x81 atime, r)] /\
    (256 - atime) * 2400000 = (dur / 2400000) * 2400000 + 2400000 /\
    dur < (256 - atime) * 2400000 <= dur + 2400000.
Proof.
  intros H. exists (255 - dur / 2400000).
  rewrite (SetIntegrationTime_eq dur H d). cbn [snd dev].
  eexists. split; [reflexivity|].
  change (2400000 <= dur <= 612000000) in H.
  pose proof (Z.mod_pos_bound dur 2400000 ltac:(lia)) as Hm.
  pose proof (Z.div_mod dur 2400000 ltac:(lia)) as Hd.
  lia.
Qed.

Lemma SetIntegrationTime_period_witness :
  let d := mkDev (Sim.sensor 0x44 0x11 0 0 0 0) 0 in
  exists atime r,
    log (dev (snd (SetIntegrationTime (2400 * time.Microsecond) d))) = [(WrU8 0x81 atime, r)] /\
    (256 - atime) * 2400000 = 4800000.
Proof.
  intros d.
  destruct (SetIntegrationTime_period (2400 * time.Microsecond) d)
    as (atime & r & Hlog & Heq & _).
  - cbv; split; discriminate.
  - exists atime, r. split; [exact Hlog|exact Heq].
Defined.

(** Where the stored count and the documented one agree: only for ATIME
    codes from 64 to 192, where both are capped. *)
Lemma stored_vs_documented (atime : Z) :
  0 <= atime <= 255 ->
  (Lifetime.storedMaxCount atime = Lifetime.documentedMaxCount atime <->
   64 <= atime <= 192).
Proof.
  unfold Lifetime.storedMaxCount, Lifetime.documentedMaxCount. lia.
Qed.

(** C2. The count SetIntegrationTime stores is min(ATIME * 1024, 65535) for
    the ATIME code it writes, not the documented (256 - ATIME) * 1024 capped
    at 65535: at 612 ms the code written is 0 and the count stored is 0,
    where the documented count is 65535; at 2.4 ms the code is 254 and the
    count 65535, where the documented count is 2048. *)
Theorem SetIntegrationTime_count_not_documented :
  forall d : Dev,
    (let d' := snd (SetIntegrationTime (612 * time.Millisecond) d) in
     ops (dev d') = ops (dev d) ++ [WrU8 0x81 0] /\
     MaxCount d' = 0 /\
     Lifetime.documentedMaxCount 0 = 65535) /\
    (let d' := snd (SetIntegrationTime (2400 * time.Microsecond) d) in
     ops (dev d') = ops (dev d) ++ [WrU8 0x81 254] /\
     MaxCount d' = 65535 /\
     Lifetime.documentedMaxCount 254 = 2048).
Proof.
  intros d.
  pose proof (SetIntegrationTime_612ms d) as H612.
  pose proof (SetIntegrationTime_2400us d) as H24. cbv zeta in *.
  split; (split; [tauto | split; [tauto | reflexivity]]).
Qed.

(** C3. When the write of atime to the ATIME register fails, the call
    returns that transport error, and maxCount already holds the count
    derived from the new atime, whatever it held before. *)
Theorem SetIntegrationTime_write_fails :
  forall (dur : time.Duration) (d : Dev) (msg : string),
    2400 * time.Microsecond <= dur <= 612 * time.Millisecond ->
    let atime := 255 - time.Nanoseconds dur / 2400000 in
    fault (respond (dev d) (log (dev d)) (WrU8 cmdATime atime)) = Some msg ->
    let d' := snd (SetIntegrationTime dur d) in
    fst (SetIntegrationTime dur d) = Some (TransportError msg) /\
    ops (dev d') = ops (dev d) ++ [WrU8 cmdATime atime] /\
    MaxCount d' = Z.min (atime * 1024) 65535.
Proof.
  intros dur d msg H atime Hf d'. subst d'.
  rewrite (SetIntegrationTime_eq dur H d). cbn [fst snd].
  split; [|split].
  - apply to_error_Some. exact Hf.
  - unfold ops, Tx; cbn [log dev fst snd]. rewrite map_app. reflexivity.
  - reflexivity.
Qed.

Lemma SetIntegrationTime_write_fails_witness :
  let d := mkDev (Sim.failing_at 0 (Sim.sensor 0x44 0x11 0 0 0 0)) 44032 in
  let d' := snd (SetIntegrationTime (612 * time.Millisecond) d) in
  fst (SetIntegrationTime (612 * time.Millisecond) d)
    = Some (TransportError "i/o error") /\
  ops (dev d') = [WrU8 0x81 0] /\
  MaxCount d = 44032 /\ MaxCount d' = 0.
Proof.
  intros d d'.
  assert (H : 2400 * time.Microsecond <= 612 * time.Millisecond <= 612 * time.Millisecond)
    by (cbv; split; discriminate).
  destruct (SetIntegrationTime_write_fails (612 * time.Millisecond) d "i/o error" H
              eq_refl) as (Herr & Hops & Hmax).
  split; [exact Herr|]. split; [exact Hops|]. split; [reflexivity|exact Hmax].
Defined.

(** C5. For every duration below 2.4 ms or above 612 ms (0 and one second
    among them), SetIntegrationTime fails with the range error and leaves
    the handle as it was: nothing is sent on the bus and maxCount is
    unchanged. *)
Theorem SetIntegrationTime_rejects_out_of_range :
  forall (dur : time.Duration) (d : Dev),
    dur < 2400 * time.Microsecond \/ dur > 612 * time.Millisecond ->
    let d' := snd (SetIntegrationTime dur d) in
    fst (SetIntegrationTime dur d) = Some ErrIntegrationTime /\
    Error ErrIntegrationTime = "integration time must be between 2.4 and 612 ms"%string /\
    log (dev d') = log (dev d) /\
    MaxCount d' = MaxCount d /\
    d' = d.
Proof.
  intros dur d H d'. subst d'.
  rewrite (SetIntegrationTime_out_of_range dur d H). cbn [fst snd].
  repeat split.
Qed.

Lemma SetIntegrationTime_rejects_out_of_range_witness :
  let d := mkDev (Sim.sensor 0x44 0x11 0 0 0 0) 44032 in
  (fst (SetIntegrationTime 0 d) = Some ErrIntegrationTime /\
   log (dev (snd (SetIntegrationTime 0 d))) = [] /\
   MaxCount (snd (SetIntegrationTime 0 d)) = 44032) /\
  (fst (SetIntegrationTime time.Second d) = Some ErrIntegrationTime /\
   log (dev (snd (SetIntegrationTime time.Second d))) = [] /\
   MaxCount (snd (SetIntegrationTime time.Second d)) = 44032).
Proof.
  intros d. split.
  - destruct (SetIntegrationTime_rejects_out_of_range 0 d) as (He & _ & Hl & Hm & _).
    + left. reflexivity.
    + split; [exact He|]. split; [exact Hl|exact Hm].
  - destruct (SetIntegrationTime_rejects_out_of_range time.Second d)
      as (He & _ & Hl & Hm & _).
    + right. reflexivity.
    + split; [exact He|]. split; [exact Hl|exact Hm].
Defined.

(** ** Reads and writes extend the log by one transaction *)

Lemma ReadUint8_ops (reg : Z) (b b' : Bus) (x : Z * option error) :
  ReadUint8 reg b = (x, b') -> ops b' = ops b ++ [RdU8 reg].
Proof.
  unfold ReadUint8, Tx, ops. intros H; inversion H; subst; cbn [log].
  rewrite map_app. reflexivity.
Qed.

Lemma ReadUint16_ops (reg : Z) (b b' : Bus) (x : Z * option error) :
  ReadUint16 reg b = (x, b') -> ops b' = ops b ++ [RdU16 reg].
Proof.
  unfold ReadUint16, Tx, ops. intros H; inversion H; subst; cbn [log].
  rewrite map_app. reflexivity.
Qed.

Lemma WriteUint8_ops (reg v : Z) (b b' : Bus) (e : option error) :
  WriteUint8 reg v b = (e, b') -> ops b' = ops b ++ [WrU8 reg v].
Proof.
  unfold WriteUint8, Tx, ops. intros H; inversion H; subst; cbn [log].
  rewrite map_app. reflexivity.
Qed.

(** ** New *)

(** The default integration time of New: ATIME 43, count 44032. *)
Lemma default_integration_time (d : Dev) :
  SetIntegrationTime (511 * time.Millisecond) d =
  (to_error (fst (Tx (WrU8 cmdATime 43) (dev d))),
   mkDev (snd (Tx (WrU8 cmdATime 43) (dev d))) 44032).
Proof.
  rewrite SetIntegrationTime_eq by (cbv; split; discriminate). reflexivity.
Qed.

Lemma New_wrong_id (b b1 : Bus) (id : Z) :
  ReadUint8 cmdChipID b = ((id, None), b1) ->
  id <> chipID -> id <> chipIDAlt ->
  New b = ((None, Some (ErrChipID id)), b1).
Proof.
  intros Hrd H1 H2. unfold New, devReadUint8. cbn [dev maxCount].
  rewrite Hrd. cbn [dev].
  apply Z.eqb_neq in H1, H2. rewrite H1, H2. reflexivity.
Qed.

Lemma New_handle_inv (b b' : Bus) (d : Dev) (e : option error) :
  New b = ((Some d, e), b') ->
  exists id b1, ReadUint8 cmdChipID b = ((id, None), b1) /\
                (id = chipID \/ id = chipIDAlt).
Proof.
  unfold New, devReadUint8. cbn [dev maxCount].
  destruct (ReadUint8 cmdChipID b) as [[id err] b1]. cbn [dev].
  destruct err as [e0|]; [discriminate|].
  destruct (Z.eqb_spec id chipID) as [->|Hn1].
  - intros _. exists chipID, b1. split; [reflexivity|left; reflexivity].
  - destruct (Z.eqb_spec id chipIDAlt) as [->|Hn2].
    + intros _. exists chipIDAlt, b1. split; [reflexivity|right; reflexivity].
    + cbn [negb andb]. discriminate.
Qed.

(** C6. New hands back a handle only when the chip-ID register (0x92) was
    read without error as 0x44 or 0x4D; when it reads as any other byte,
    New returns no handle and the error "tcs3472: unexpected chip ID 0x.."
    carrying that byte, and sends nothing else on the bus. *)
Theorem New_checks_chip_id :
  forall b : Bus,
    (forall d e b', New b = ((Some d, e), b') ->
       exists id b1, ReadUint8 0x92 b = ((id, None), b1) /\ (id = 0x44 \/ id = 0x4D)) /\
    (forall id b1, ReadUint8 0x92 b = ((id, None), b1) ->
       id <> 0x44 -> id <> 0x4D ->
       New b = ((None, Some (ErrChipID id)), b1) /\
       Error (ErrChipID id) = ("tcs3472: unexpected chip ID 0x" ++ hex8 id)%string /\
       ops b1 = ops b ++ [RdU8 0x92]).
Proof.
  intros b. split.
  - intros d e b' H. exact (New_handle_inv b b' d e H).
  - intros id b1 Hrd H1 H2. split; [|split].
    + apply New_wrong_id; assumption.
    + reflexivity.
    + exact (ReadUint8_ops _ _ _ _ Hrd).
Qed.

Lemma New_checks_chip_id_witness :
  (let b := Sim.sensor 0x44 0x11 0 0 0 0 in
   exists d, fst (New b) = (Some d, None) /\ MaxCount d = 44032 /\
             exists id b1, ReadUint8 0x92 b = ((id, None), b1) /\ (id = 0x44 \/ id = 0x4D)) /\
  (let b := Sim.sensor 0x00 0x11 0 0 0 0 in
   fst (New b) = (None, Some (ErrChipID 0)) /\
   Error (ErrChipID 0) = "tcs3472: unexpected chip ID 0x0"%string /\
   ops (snd (New b)) = [RdU8 0x92]).
Proof.
  split.
  - intros b. eexists. split; [reflexivity|]. split; [reflexivity|].
    eapply (proj1 (New_checks_chip_id b)). reflexivity.
  - intros b.
    destruct (proj2 (New_checks_chip_id b) 0 (snd (ReadUint8 0x92 b)) eq_refl)
      as (Hn & He & Ho); [discriminate|discriminate|].
    split; [rewrite Hn; reflexivity|]. split; [exact He|].
    rewrite Hn. exact Ho.
Defined.

(** With either known identifier and both configuration writes
    acknowledged, New does hand back a handle: the ID is read, 3 (the power
    and RGBC-enable bits) is written to the enable register and 43 (511 ms)
    to ATIME, and maxCount is 44032. *)
Lemma New_known_id (b b1 b2 b3 : Bus) (id : Z) :
  ReadUint8 cmdChipID b = ((id, None), b1) ->
  id = chipID \/ id = chipIDAlt ->
  WriteUint8 cmdEnable (Z.lor enablePower enableRGBC) b1 = (None, b2) ->
  WriteUint8 cmdATime 43 b2 = (None, b3) ->
  New b = ((Some (mkDev b3 44032), None), b3) /\
  ops b3 = ops b ++ [RdU8 0x92; WrU8 0x80 3; WrU8 0x81 43].
Proof.
  intros Hrd Hid Hen Hat. split.
  - unfold New, devReadUint8, devWriteUint8. cbn [dev maxCount].
    rewrite Hrd. cbn [dev maxCount].
    assert (Hc : negb (id =? chipID) && negb (id =? chipIDAlt) = false)
      by (destruct Hid; subst; reflexivity).
    rewrite Hc, Hen. cbn [dev maxCount]. rewrite default_integration_time.
    cbn [dev]. unfold WriteUint8 in Hat.
    destruct (Tx (WrU8 cmdATime 43) b2) as [r b']. cbn [fst snd].
    inversion Hat as [[He Hb]]. rewrite He. reflexivity.
  - rewrite (WriteUint8_ops _ _ _ _ _ Hat), (WriteUint8_ops _ _ _ _ _ Hen),
      (ReadUint8_ops _ _ _ _ Hrd).
    rewrite <- !app_assoc. reflexivity.
Qed.

Lemma New_known_id_witness :
  let b := Sim.sensor 0x4D 0x11 0 0 0 0 in
  exists d, New b = ((Some d, None), dev d) /\
            ops (dev d) = [RdU8 0x92; WrU8 0x80 3; WrU8 0x81 43] /\
            MaxCount d = 44032.
Proof.
  intros b.
  set (b1 := snd (ReadUint8 cmdChipID b)).
  set (b2 := snd (WriteUint8 cmdEnable (Z.lor enablePower enableRGBC) b1)).
  set (b3 := snd (WriteUint8 cmdATime 43 b2)).
  destruct (New_known_id b b1 b2 b3 0x4D eq_refl (or_intror eq_refl) eq_refl eq_refl)
    as (Hn & Ho).
  exists (mkDev b3 44032). split; [exact Hn|]. split; [exact Ho|reflexivity].
Defined.

(** ** Measure and MeasureRaw *)

Lemma float32_holds_from_spec (n : nat) :
  forall x, float32_holds_from n x = true ->
            forall y, x <= y < x + Z.of_nat n -> float32_holds y (float32_of_uint16 y) = true.
Proof.
  induction n as [|n IH]; intros x Hall y Hy.
  - lia.
  - cbn [float32_holds_from] in Hall. apply andb_true_iff in Hall.
    destruct Hall as [Hx Hrest].
    destruct (Z.eq_dec y x) as [->|Hne]; [exact Hx|].
    apply (IH (x + 1) Hrest). lia.
Qed.

(** The conversion of a 16-bit count to float32 loses nothing. *)
Lemma float32_of_uint16_exact (x : Z) :
  0 <= x < 2 ^ 16 -> float32_holds x (float32_of_uint16 x) = true.
Proof.
  intros Hx.
  apply (float32_holds_from_spec (Z.to_nat 65536) 0).
  - vm_compute. reflexivity.
  - rewrite Z2Nat.id by lia. change (2 ^ 16) with 65536 in Hx. lia.
Qed.

Section FourReads.

Variables (d : Dev) (l : Light).
Variables (c r g b : Z) (b1 b2 b3 b4 : Bus).
Hypothesis clear_ok : ReadUint16 cmdReadClear (dev d) = ((c, None), b1).
Hypothesis red_ok : ReadUint16 cmdReadRed b1 = ((r, None), b2).
Hypothesis green_ok : ReadUint16 cmdReadGreen b2 = ((g, None), b3).
Hypothesis blue_ok : ReadUint16 cmdReadBlue b3 = ((b, None), b4).

Lemma MeasureRaw_ok :
  MeasureRaw d = (([c; r; g; b], None), mkDev b4 (maxCount d)).
Proof.
  unfold MeasureRaw, bind, devReadUint16. cbn [dev maxCount].
  rewrite clear_ok. cbn [dev maxCount]. rewrite red_ok. cbn [dev maxCount].
  rewrite green_ok. cbn [dev maxCount]. rewrite blue_ok. reflexivity.
Qed.

Lemma Measure_ok :
  Measure l d =
  ((None, mkLight c
                  (float32_div (float32_of_uint16 r) (float32_of_uint16 c))
                  (float32_div (float32_of_uint16 g) (float32_of_uint16 c))
                  (float32_div (float32_of_uint16 b) (float32_of_uint16 c))),
   mkDev b4 (maxCount d)).
Proof.
  unfold Measure, bind. rewrite MeasureRaw_ok. reflexivity.
Qed.

Lemma four_reads_ops :
  ops b4 = ops (dev d) ++ [RdU16 0xB4; RdU16 0xB6; RdU16 0xB8; RdU16 0xBA].
Proof.
  rewrite (ReadUint16_ops _ _ _ _ blue_ok), (ReadUint16_ops _ _ _ _ green_ok),
    (ReadUint16_ops _ _ _ _ red_ok), (ReadUint16_ops _ _ _ _ clear_ok).
  rewrite <- !app_assoc. reflexivity.
Qed.

End FourReads.

(** C7. When the four channel reads succeed with clear c, red r, green g
    and blue b, Measure returns nil and leaves Int = c and R, G, B = the
    float32 quotients r/c, g/c, b/c, nothing else applied to them; the
    reads are issued in the order clear (0xB4), red (0xB6), green (0xB8),
    blue (0xBA). On raw counts 1000, 300, 400, 300 it leaves Int = 1000 and
    R, G, B the float32 values nearest 0.3, 0.4, 0.3. *)
Theorem Measure_normalizes :
  (forall (l : Light) (d : Dev) (c r g b : Z) (b1 b2 b3 b4 : Bus),
      ReadUint16 cmdReadClear (dev d) = ((c, None), b1) ->
      ReadUint16 cmdReadRed b1 = ((r, None), b2) ->
      ReadUint16 cmdReadGreen b2 = ((g, None), b3) ->
      ReadUint16 cmdReadBlue b3 = ((b, None), b4) ->
      Measure l d =
      ((None, mkLight c
                      (float32_div (float32_of_uint16 r) (float32_of_uint16 c))
                      (float32_div (float32_of_uint16 g) (float32_of_uint16 c))
                      (float32_div (float32_of_uint16 b) (float32_of_uint16 c))),
       mkDev b4 (maxCount d)) /\
      ops b4 = ops (dev d) ++ [RdU16 0xB4; RdU16 0xB6; RdU16 0xB8; RdU16 0xBA]) /\
  (forall (l : Light) (mc : Z),
      let d := mkDev (Sim.sensor 0x44 0x11 1000 300 400 300) mc in
      let l' := snd (fst (Measure l d)) in
      fst (fst (Measure l d)) = None /\
      Int l' = 1000 /\
      nearest_float32 3 10 (R l') /\
      nearest_float32 4 10 (G l') /\
      nearest_float32 3 10 (B l')).
Proof.
  split.
  - intros l d c r g b b1 b2 b3 b4 Hc Hr Hg Hb. split.
    + exact (Measure_ok d l c r g b b1 b2 b3 b4 Hc Hr Hg Hb).
    + exact (four_reads_ops d c r g b b1 b2 b3 b4 Hc Hr Hg Hb).
  - intros l mc d l'. subst l'.
    set (b1 := snd (ReadUint16 cmdReadClear (dev d))).
    set (b2 := snd (ReadUint16 cmdReadRed b1)).
    set (b3 := snd (ReadUint16 cmdReadGreen b2)).
    set (b4 := snd (ReadUint16 cmdReadBlue b3)).
    rewrite (Measure_ok d l 1000 300 400 300 b1 b2 b3 b4
               eq_refl eq_refl eq_refl eq_refl).
    cbn [fst snd Int R G B].
    split; [reflexivity|]. split; [reflexivity|].
    repeat split; vm_compute; congruence.
Qed.

Lemma Measure_normalizes_witness :
  let d := mkDev (Sim.sensor 0x44 0x11 1000 300 400 300) 44032 in
  let l := mkLight 7 float32_zero float32_zero float32_zero in
  fst (Measure l d) =
    (None, mkLight 1000 (S754_finite false 10066330 (-25))
                        (S754_finite false 13421773 (-25))
                        (S754_finite false 10066330 (-25))) /\
  ops (dev (snd (Measure l d))) = [RdU16 0xB4; RdU16 0xB6; RdU16 0xB8; RdU16 0xBA].
Proof.
  intros d l.
  set (b1 := snd (ReadUint16 cmdReadClear (dev d))).
  set (b2 := snd (ReadUint16 cmdReadRed b1)).
  set (b3 := snd (ReadUint16 cmdReadGreen b2)).
  set (b4 := snd (ReadUint16 cmdReadBlue b3)).
  destruct (proj1 Measure_normalizes l d 1000 300 400 300 b1 b2 b3 b4
              eq_refl eq_refl eq_refl eq_refl) as (Hm & Ho).
  split.
  - rewrite Hm. reflexivity.
  - rewrite Hm. exact Ho.
Defined.

(** A clear count of 0 is not masked: the ratios are infinite or NaN. *)
Lemma Measure_clear_zero (l : Light) (mc : Z) :
  fst (Measure l (mkDev (Sim.sensor 0x44 0x11 0 10 0 0) mc)) =
  (None, mkLight 0 (S754_infinity false) S754_nan S754_nan).
Proof. reflexivity. Qed.

(** A failed read ends MeasureRaw at once; what it hands back next to the
    error is the array as filled so far. *)
Section FailingRead.

Variables (d : Dev) (l : Light) (e : error).
Variables (c r g x : Z) (b1 b2 b3 b4 : Bus).

Lemma MeasureRaw_clear_fails :
  ReadUint16 cmdReadClear (dev d) = ((x, Some e), b1) ->
  MeasureRaw d = (([x; 0; 0; 0], Some e), mkDev b1 (maxCount d)).
Proof.
  intros H. unfold MeasureRaw, bind, devReadUint16. rewrite H. reflexivity.
Qed.

Lemma MeasureRaw_red_fails :
  ReadUint16 cmdReadClear (dev d) = ((c, None), b1) ->
  ReadUint16 cmdReadRed b1 = ((x, Some e), b2) ->
  MeasureRaw d = (([c; x; 0; 0], Some e), mkDev b2 (maxCount d)).
Proof.
  intros H1 H2. unfold MeasureRaw, bind, devReadUint16. rewrite H1.
  cbn [dev maxCount]. rewrite H2. reflexivity.
Qed.

Lemma MeasureRaw_green_fails :
  ReadUint16 cmdReadClear (dev d) = ((c, None), b1) ->
  ReadUint16 cmdReadRed b1 = ((r, None), b2) ->
  ReadUint16 cmdReadGreen b2 = ((x, Some e), b3) ->
  MeasureRaw d = (([c; r; x; 0], Some e), mkDev b3 (maxCount d)).
Proof.
  intros H1 H2 H3. unfold MeasureRaw, bind, devReadUint16. rewrite H1.
  cbn [dev maxCount]. rewrite H2. cbn [dev maxCount]. rewrite H3. reflexivity.
Qed.

Lemma MeasureRaw_blue_fails :
  ReadUint16 cmdReadClear (dev d) = ((c, None), b1) ->
  ReadUint16 cmdReadRed b1 = ((r, None), b2) ->
  ReadUint16 cmdReadGreen b2 = ((g, None), b3) ->
  ReadUint16 cmdReadBlue b3 = ((x, Some e), b4) ->
  MeasureRaw d = (([c; r; g; x], Some e), mkDev b4 (maxCount d)).
Proof.
  intros H1 H2 H3 H4. unfold MeasureRaw, bind, devReadUint16. rewrite H1.
  cbn [dev maxCount]. rewrite H2. cbn [dev maxCount]. rewrite H3.
  cbn [dev maxCount]. rewrite H4. reflexivity.
Qed.

(** Measure hands the error on and leaves the caller's Light alone. *)
Lemma Measure_propagates (vals : RawValues) (d' : Dev) :
  MeasureRaw d = ((vals, Some e), d') -> Measure l d = ((Some e, l), d').
Proof. intros H. unfold Measure, bind. rewrite H. reflexivity. Qed.

End FailingRead.

(** The inline Measure of tcs3472.go stops at the same reads; by then the
    clear read has been stored in l.Int. *)
Section PrevFailingRead.

Variables (d : Dev) (l : Light) (e : error).
Variables (c r g x : Z) (b1 b2 b3 b4 : Bus).

Lemma Prev_Measure_clear_fails :
  ReadUint16 cmdReadClear (dev d) = ((x, Some e), b1) ->
  Tcs3472Prev.Measure l d = ((Some e, mkLight x (R l) (G l) (B l)), mkDev b1 (maxCount d)).
Proof.
  intros H1. unfold Tcs3472Prev.Measure, bind, devReadUint16. rewrite H1. reflexivity.
Qed.

Lemma Prev_Measure_stops_at_red :
  ReadUint16 cmdReadClear (dev d) = ((c, None), b1) ->
  ReadUint16 cmdReadRed b1 = ((x, Some e), b2) ->
  Tcs3472Prev.Measure l d = ((Some e, mkLight c (R l) (G l) (B l)), mkDev b2 (maxCount d)).
Proof.
  intros H1 H2. unfold Tcs3472Prev.Measure, bind, devReadUint16. rewrite H1.
  cbn [dev maxCount]. rewrite H2. reflexivity.
Qed.

Lemma Prev_Measure_stops_at_green :
  ReadUint16 cmdReadClear (dev d) = ((c, None), b1) ->
  ReadUint16 cmdReadRed b1 = ((r, None), b2) ->
  ReadUint16 cmdReadGreen b2 = ((x, Some e), b3) ->
  Tcs3472Prev.Measure l d = ((Some e, mkLight c (R l) (G l) (B l)), mkDev b3 (maxCount d)).
Proof.
  intros H1 H2 H3. unfold Tcs3472Prev.Measure, bind, devReadUint16. rewrite H1.
  cbn [dev maxCount]. rewrite H2. cbn [dev maxCount]. rewrite H3. reflexivity.
Qed.

Lemma Prev_Measure_stops_at_blue :
  ReadUint16 cmdReadClear (dev d) = ((c, None), b1) ->
  ReadUint16 cmdReadRed b1 = ((r, None), b2) ->
  ReadUint16 cmdReadGreen b2 = ((g, None), b3) ->
  ReadUint16 cmdReadBlue b3 = ((x, Some e), b4) ->
  Tcs3472Prev.Measure l d = ((Some e, mkLight c (R l) (G l) (B l)), mkDev b4 (maxCount d)).
Proof.
  intros H1 H2 H3 H4. unfold Tcs3472Prev.Measure, bind, devReadUint16. rewrite H1.
  cbn [dev maxCount]. rewrite H2. cbn [dev maxCount]. rewrite H3.
  cbn [dev maxCount]. rewrite H4. reflexivity.
Qed.

End PrevFailingRead.

(** C8, as the code has it. When a channel read fails, MeasureRaw and
    Measure, in both revisions of the driver, return that read's error at
    once: the bus has seen the reads up to the failing one and none after
    it. What comes back with the error: MeasureRaw returns its array as
    filled so far (the counts already read, what the failed read gave, zero
    for the channels after it); Measure of the complete driver leaves the
    caller's Light as it was; the inline Measure of tcs3472.go leaves R, G
    and B as they were, Int holding what the clear read gave. One case per
    channel that can fail first: clear, red, green, blue. *)
Theorem Measure_aborts_at_failed_read :
  forall (l : Light) (d : Dev) (e : error) (c r g x : Z) (b1 b2 b3 b4 : Bus),
    (ReadUint16 cmdReadClear (dev d) = ((x, Some e), b1) ->
     MeasureRaw d = (([x; 0; 0; 0], Some e), mkDev b1 (maxCount d)) /\
     Measure l d = ((Some e, l), mkDev b1 (maxCount d)) /\
     Tcs3472Prev.Measure l d =
       ((Some e, mkLight x (R l) (G l) (B l)), mkDev b1 (maxCount d)) /\
     ops b1 = ops (dev d) ++ [RdU16 0xB4]) /\
    (ReadUint16 cmdReadClear (dev d) = ((c, None), b1) ->
     ReadUint16 cmdReadRed b1 = ((x, Some e), b2) ->
     MeasureRaw d = (([c; x; 0; 0], Some e), mkDev b2 (maxCount d)) /\
     Measure l d = ((Some e, l), mkDev b2 (maxCount d)) /\
     Tcs3472Prev.Measure l d =
       ((Some e, mkLight c (R l) (G l) (B l)), mkDev b2 (maxCount d)) /\
     ops b2 = ops (dev d) ++ [RdU16 0xB4; RdU16 0xB6]) /\
    (ReadUint16 cmdReadClear (dev d) = ((c, None), b1) ->
     ReadUint16 cmdReadRed b1 = ((r, None), b2) ->
     ReadUint16 cmdReadGreen b2 = ((x, Some e), b3) ->
     MeasureRaw d = (([c; r; x; 0], Some e), mkDev b3 (maxCount d)) /\
     Measure l d = ((Some e, l), mkDev b3 (maxCount d)) /\
     Tcs3472Prev.Measure l d =
       ((Some e, mkLight c (R l) (G l) (B l)), mkDev b3 (maxCount d)) /\
     ops b3 = ops (dev d) ++ [RdU16 0xB4; RdU16 0xB6; RdU16 0xB8]) /\
    (ReadUint16 cmdReadClear (dev d) = ((c, None), b1) ->
     ReadUint16 cmdReadRed b1 = ((r, None), b2) ->
     ReadUint16 cmdReadGreen b2 = ((g, None), b3) ->
     ReadUint16 cmdReadBlue b3 = ((x, Some e), b4) ->
     MeasureRaw d = (([c; r; g; x], Some e), mkDev b4 (maxCount d)) /\
     Measure l d = ((Some e, l), mkDev b4 (maxCount d)) /\
     Tcs3472Prev.Measure l d =
       ((Some e, mkLight c (R l) (G l) (B l)), mkDev b4 (maxCount d)) /\
     ops b4 = ops (dev d) ++ [RdU16 0xB4; RdU16 0xB6; RdU16 0xB8; RdU16 0xBA]).
Proof.
  intros l d e c r g x b1 b2 b3 b4. split; [|split; [|split]].
  - intros H1.
    pose proof (MeasureRaw_clear_fails d e x b1 H1) as Hraw.
    split; [exact Hraw|]. split; [exact (Measure_propagates d l e _ _ Hraw)|].
    split; [exact (Prev_Measure_clear_fails d l e x b1 H1)|].
    exact (ReadUint16_ops _ _ _ _ H1).
  - intros H1 H2.
    pose proof (MeasureRaw_red_fails d e c x b1 b2 H1 H2) as Hraw.
    split; [exact Hraw|]. split; [exact (Measure_propagates d l e _ _ Hraw)|].
    split; [exact (Prev_Measure_stops_at_red d l e c x b1 b2 H1 H2)|].
    rewrite (ReadUint16_ops _ _ _ _ H2), (ReadUint16_ops _ _ _ _ H1).
    rewrite <- !app_assoc. reflexivity.
  - intros H1 H2 H3.
    pose proof (MeasureRaw_green_fails d e c r x b1 b2 b3 H1 H2 H3) as Hraw.
    split; [exact Hraw|]. split; [exact (Measure_propagates d l e _ _ Hraw)|].
    split; [exact (Prev_Measure_stops_at_green d l e c r x b1 b2 b3 H1 H2 H3)|].
    rewrite (ReadUint16_ops _ _ _ _ H3), (ReadUint16_ops _ _ _ _ H2),
      (ReadUint16_ops _ _ _ _ H1).
    rewrite <- !app_assoc. reflexivity.
  - intros H1 H2 H3 H4.
    pose proof (MeasureRaw_blue_fails d e c r g x b1 b2 b3 b4 H1 H2 H3 H4) as Hraw.
    split; [exact Hraw|]. split; [exact (Measure_propagates d l e _ _ Hraw)|].
    split; [exact (Prev_Measure_stops_at_blue d l e c r g x b1 b2 b3 b4 H1 H2 H3 H4)|].
    rewrite (ReadUint16_ops _ _ _ _ H4), (ReadUint16_ops _ _ _ _ H3),
      (ReadUint16_ops _ _ _ _ H2), (ReadUint16_ops _ _ _ _ H1).
    rewrite <- !app_assoc. reflexivity.
Qed.

Lemma Measure_aborts_at_failed_read_witness :
  let d := mkDev (Sim.failing_at 1 (Sim.sensor 0x44 0x11 1000 300 400 300)) 44032 in
  let l := mkLight 7 float32_zero float32_zero float32_zero in
  let e := TransportError "i/o error" in
  fst (MeasureRaw d) = ([1000; 0; 0; 0], Some e) /\
  fst (Measure l d) = (Some e, l) /\
  fst (Tcs3472Prev.Measure l d) = (Some e, mkLight 1000 (R l) (G l) (B l)) /\
  ops (dev (snd (MeasureRaw d))) = [RdU16 0xB4; RdU16 0xB6] /\
  ops (dev (snd (Measure l d))) = [RdU16 0xB4; RdU16 0xB6] /\
  ops (dev (snd (Tcs3472Prev.Measure l d))) = [RdU16 0xB4; RdU16 0xB6].
Proof.
  intros d l e.
  destruct (Measure_aborts_at_failed_read l d e 1000 0 0 0
              (snd (ReadUint16 cmdReadClear (dev d)))
              (snd (ReadUint16 cmdReadRed (snd (ReadUint16 cmdReadClear (dev d)))))
              (dev d) (dev d)) as (_ & Hred & _).
  destruct (Hred eq_refl eq_refl) as (Hraw & Hm & Hp & Hops).
  rewrite Hraw, Hm, Hp. cbn [fst snd dev].
  repeat split; exact Hops.
Defined.

(** C8 as the specification words it fails: on a sensor whose red read
    fails after the clear read gave 1000, MeasureRaw returns the array
    1000, 0, 0, 0 next to the error, and the Measure of tcs3472.go, called
    on a Light whose Int is 7, returns the error with Int changed to 1000.
    A partial result is handed back, and the caller's measurement is not
    as it was. *)
Lemma failed_read_leaves_partial_result :
  let d := mkDev (Sim.failing_at 1 (Sim.sensor 0x44 0x11 1000 300 400 300)) 44032 in
  let l := mkLight 7 float32_zero float32_zero float32_zero in
  fst (MeasureRaw d) = ([1000; 0; 0; 0], Some (TransportError "i/o error")) /\
  fst (fst (MeasureRaw d)) <> RawValues_zero /\
  fst (fst (Tcs3472Prev.Measure l d)) = Some (TransportError "i/o error") /\
  Int (snd (fst (Tcs3472Prev.Measure l d))) = 1000 /\
  snd (fst (Tcs3472Prev.Measure l d)) <> l.
Proof.
  intros d l.
  split; [reflexivity|]. split; [discriminate|]. split; [reflexivity|].
  split; [reflexivity|]. discriminate.
Qed.

(** ** Valid *)

Lemma land_statusValid (v : Z) :
  (Z.land (uint8 v) statusValid >? 0) = Z.testbit v 0.
Proof.
  unfold uint8, statusValid. change 1 with (Z.ones 1).
  rewrite Z.land_ones by lia. change (2 ^ 1) with 2.
  rewrite <- Z.bit0_mod, Z.mod_pow2_bits_low by lia.
  destruct (Z.testbit v 0); reflexivity.
Qed.

(** Valid reads the status register (0x93) once and answers with its bit 0;
    a failed read gives false and the transport error. So a status byte
    0x01 means valid and 0x10 (only the interrupt bit) does not. *)
Lemma Valid_reads_status :
  (forall d : Dev,
      let r := respond (dev d) (log (dev d)) (RdU8 0x93) in
      let d' := snd (Valid d) in
      fst (Valid d) = (match fault r with
                       | None => Z.testbit (val r) 0
                       | Some _ => false
                       end, to_error r) /\
      log (dev d') = log (dev d) ++ [(RdU8 0x93, r)] /\
      MaxCount d' = MaxCount d) /\
  (forall mc, fst (Valid (mkDev (Sim.sensor 0x44 0x01 0 0 0 0) mc)) = (true, None)) /\
  (forall mc, fst (Valid (mkDev (Sim.sensor 0x44 0x10 0 0 0 0) mc)) = (false, None)).
Proof.
  split; [|split; intros mc; reflexivity].
  intros d. cbv zeta. unfold Valid, bind, devReadUint8, ReadUint8, Tx.
  cbn [fst snd dev log maxCount]. change cmdStatus with 0x93.
  unfold to_error.
  destruct (fault (respond (dev d) (log (dev d)) (RdU8 147))) as [msg|];
    cbn [option_map ret fst snd dev log MaxCount maxCount].
  - repeat split.
  - rewrite land_statusValid. repeat split.
Qed.

(** ** Halt *)

(** Halt of the complete driver writes zero to the enable register (0x80),
    a value with the power bit and the RGBC-enable bit both clear, and
    returns what the write returned. A second Halt does the same again: two
    zero writes are on the bus, each call returns nil when its write is
    acknowledged, and maxCount is untouched. *)
Lemma Halt_writes_zero :
  forall d : Dev,
    let r1 := respond (dev d) (log (dev d)) (WrU8 0x80 0) in
    let d1 := snd (Halt d) in
    let r2 := respond (dev d1) (log (dev d1)) (WrU8 0x80 0) in
    let d2 := snd (Halt d1) in
    fst (Halt d) = to_error r1 /\
    log (dev d1) = log (dev d) ++ [(WrU8 0x80 0, r1)] /\
    fst (Halt d1) = to_error r2 /\
    log (dev d2) = log (dev d) ++ [(WrU8 0x80 0, r1); (WrU8 0x80 0, r2)] /\
    (fault r1 = None -> fst (Halt d) = None) /\
    (fault r2 = None -> fst (Halt d1) = None) /\
    Z.land 0 enablePower = 0 /\ Z.land 0 enableRGBC = 0 /\
    MaxCount d2 = MaxCount d.
Proof.
  intros d. cbv zeta.
  unfold Halt, devWriteUint8, WriteUint8, Tx. cbn [fst snd dev log respond maxCount].
  change cmdEnable with 0x80.
  repeat split.
  - rewrite <- app_assoc. reflexivity.
  - apply to_error_None.
  - apply to_error_None.
Qed.

Lemma Halt_writes_zero_witness :
  let d := mkDev (Sim.sensor 0x44 0x11 0 0 0 0) 44032 in
  fst (Halt d) = None /\ fst (Halt (snd (Halt d))) = None /\
  log (dev (snd (Halt (snd (Halt d))))) =
    [(WrU8 0x80 0, Sim.ack 0); (WrU8 0x80 0, Sim.ack 0)].
Proof.
  intros d.
  destruct (Halt_writes_zero d) as (_ & _ & _ & Hlog & H1 & H2 & _).
  split; [apply H1; reflexivity|]. split; [apply H2; reflexivity|]. exact Hlog.
Defined.

(** ** The earlier revision *)

(** In tcs3472.go Halt is a stub: it returns nil and sends nothing. *)
Lemma Prev_Halt_is_a_stub (d : Dev) : Tcs3472Prev.Halt d = (None, d).
Proof. reflexivity. Qed.

(** C9 on the Halt of tcs3472.go. It returns nil and leaves the handle and
    the bus as they were, whatever the handle. So on a sensor that
    acknowledges everything, after New and two calls of Halt the bus has
    seen the three transactions of New and no write of zero: the enable
    register still holds 3, power and RGBC on. The Halt of the complete
    driver, on the same handle, adds the two zero writes. *)
Theorem Prev_Halt_writes_nothing :
  (forall d : Dev,
      Tcs3472Prev.Halt d = (None, d) /\
      snd (Tcs3472Prev.Halt (snd (Tcs3472Prev.Halt d))) = d) /\
  (let b := Sim.sensor 0x44 0x11 0 0 0 0 in
   exists d : Dev,
     New b = ((Some d, None), dev d) /\
     fst (Tcs3472Prev.Halt d) = None /\
     fst (Tcs3472Prev.Halt (snd (Tcs3472Prev.Halt d))) = None /\
     ops (dev (snd (Tcs3472Prev.Halt (snd (Tcs3472Prev.Halt d))))) =
       [RdU8 0x92; WrU8 0x80 3; WrU8 0x81 43] /\
     ops (dev (snd (Halt (snd (Halt d))))) =
       [RdU8 0x92; WrU8 0x80 3; WrU8 0x81 43; WrU8 0x80 0; WrU8 0x80 0]).
Proof.
  split.
  - intros d. split; reflexivity.
  - cbv zeta. eexists. split; [reflexivity|]. repeat split.
Qed.

(** In tcs3472.go Measure assigns l.Int from the clear read before the
    other reads, so a later failure leaves the clear count in the caller's
    Light. *)
Lemma Prev_Measure_red_fails (d : Dev) (l : Light) (e : error) (c x : Z) (b1 b2 : Bus) :
  ReadUint16 cmdReadClear (dev d) = ((c, None), b1) ->
  ReadUint16 cmdReadRed b1 = ((x, Some e), b2) ->
  Tcs3472Prev.Measure l d = ((Some e, mkLight c (R l) (G l) (B l)), mkDev b2 (maxCount d)).
Proof.
  intros H1 H2. unfold Tcs3472Prev.Measure, bind, devReadUint16. rewrite H1.
  cbn [dev maxCount]. rewrite H2. reflexivity.
Qed.

Lemma Prev_Measure_red_fails_witness :
  let d := mkDev (Sim.failing_at 1 (Sim.sensor 0x44 0x11 1000 300 400 300)) 44032 in
  let l := mkLight 7 float32_zero float32_zero float32_zero in
  fst (Tcs3472Prev.Measure l d) =
    (Some (TransportError "i/o error"), mkLight 1000 float32_zero float32_zero float32_zero) /\
  fst (Measure l d) = (Some (TransportError "i/o error"), l).
Proof.
  intros d l. split; [|reflexivity].
  rewrite (Prev_Measure_red_fails d l (TransportError "i/o error") 1000 0
             (snd (ReadUint16 cmdReadClear (dev d)))
             (snd (ReadUint16 cmdReadRed (snd (ReadUint16 cmdReadClear (dev d)))))
             eq_refl eq_refl).
  reflexivity.
Defined.

(** When all four reads succeed both revisions of Measure agree. *)
Lemma Prev_Measure_ok (d : Dev) (l : Light) (c r g b : Z) (b1 b2 b3 b4 : Bus) :
  ReadUint16 cmdReadClear (dev d) = ((c, None), b1) ->
  ReadUint16 cmdReadRed b1 = ((r, None), b2) ->
  ReadUint16 cmdReadGreen b2 = ((g, None), b3) ->
  ReadUint16 cmdReadBlue b3 = ((b, None), b4) ->
  Tcs3472Prev.Measure l d = Measure l d.
Proof.
  intros H1 H2 H3 H4. rewrite (Measure_ok d l c r g b b1 b2 b3 b4 H1 H2 H3 H4).
  unfold Tcs3472Prev.Measure, bind, devReadUint16. rewrite H1.
  cbn [dev maxCount]. rewrite H2. cbn [dev maxCount]. rewrite H3.
  cbn [dev maxCount]. rewrite H4. reflexivity.
Qed.

(** ** maxCount over a handle's lifetime *)

Import Lifetime.

Lemma last_atime_snoc (acked : bool) (l : list Event) (ev : Event) :
  last_atime acked (l ++ [ev]) =
  match atime_write acked ev with
  | Some v => Some v
  | None => last_atime acked l
  end.
Proof. unfold last_atime. rewrite fold_left_app. reflexivity. Qed.

Lemma Quiet_ret {A : Type} (x : A) : Quiet (ret x).
Proof. intros d. split; reflexivity. Qed.

Lemma Quiet_bind {A C : Type} (m : M A) (k : A -> M C) :
  Quiet m -> (forall x, Quiet (k x)) -> Quiet (bind m k).
Proof.
  intros Hm Hk d. unfold bind. specialize (Hm d).
  destruct (m d) as [x d1]. cbn [snd] in Hm.
  destruct (Hk x d1) as [H1 H2]. destruct Hm as [H3 H4].
  split; congruence.
Qed.

Lemma Quiet_devReadUint8 (reg : Z) : Quiet (devReadUint8 reg).
Proof.
  intros d. unfold devReadUint8, ReadUint8, Tx. cbn [snd dev maxCount log].
  split; [reflexivity|]. rewrite last_atime_snoc. reflexivity.
Qed.

Lemma Quiet_devReadUint16 (reg : Z) : Quiet (devReadUint16 reg).
Proof.
  intros d. unfold devReadUint16, ReadUint16, Tx. cbn [snd dev maxCount log].
  split; [reflexivity|]. rewrite last_atime_snoc. reflexivity.
Qed.

Lemma Quiet_devWriteUint8 (reg v : Z) : reg <> cmdATime -> Quiet (devWriteUint8 reg v).
Proof.
  intros Hreg d. unfold devWriteUint8, WriteUint8, Tx. cbn [snd dev maxCount log].
  split; [reflexivity|]. rewrite last_atime_snoc. unfold atime_write.
  apply Z.eqb_neq in Hreg. rewrite Hreg. reflexivity.
Qed.

Create HintDb quiet.
#[local] Hint Resolve Quiet_ret Quiet_devReadUint8 Quiet_devReadUint16 : quiet.

Ltac quiet_step :=
  apply Quiet_bind; [auto with quiet | intros [? [?|]]; auto with quiet].

Lemma Quiet_MeasureRaw : Quiet MeasureRaw.
Proof. unfold MeasureRaw. do 4 quiet_step. Qed.

Lemma Quiet_Measure (l : Light) : Quiet (Measure l).
Proof.
  unfold Measure. apply Quiet_bind; [exact Quiet_MeasureRaw|].
  intros [vals [e|]]; auto with quiet.
Qed.

Lemma Quiet_Valid : Quiet Valid.
Proof. unfold Valid. quiet_step. Qed.

Lemma Quiet_Halt : Quiet Halt.
Proof. apply Quiet_devWriteUint8. discriminate. Qed.

Lemma Quiet_SetGain (g : Gain) : Quiet (SetGain g).
Proof. apply Quiet_devWriteUint8. discriminate. Qed.

(** Every call but SetIntegrationTime leaves maxCount and the last ATIME
    write as they were. *)
Lemma exec_quiet (c : Call) (d : Dev) :
  (forall dur, c <> CallSetIntegrationTime dur) ->
  maxCount (exec c d) = maxCount d /\
  last_atime false (log (dev (exec c d))) = last_atime false (log (dev d)).
Proof.
  intros Hc. destruct c as [dur|g| | |l| |]; cbn [exec].
  - exfalso. exact (Hc dur eq_refl).
  - apply Quiet_SetGain.
  - apply Quiet_Valid.
  - apply Quiet_MeasureRaw.
  - apply Quiet_Measure.
  - apply Quiet_Halt.
  - split; reflexivity.
Qed.

Lemma SetIntegrationTime_follows (dur : time.Duration) (d : Dev) :
  follows_atime false storedMaxCount d ->
  follows_atime false storedMaxCount (snd (SetIntegrationTime dur d)).
Proof.
  intros Hd.
  destruct (Z_lt_dec dur (2400 * time.Microsecond)) as [Hlo|Hlo].
  { rewrite SetIntegrationTime_out_of_range by (left; exact Hlo). exact Hd. }
  destruct (Z_gt_dec dur (612 * time.Millisecond)) as [Hhi|Hhi].
  { rewrite SetIntegrationTime_out_of_range by (right; exact Hhi). exact Hd. }
  assert (H : 2400 * time.Microsecond <= dur <= 612 * time.Millisecond) by lia.
  rewrite (SetIntegrationTime_eq dur H d). cbn [snd].
  exists (255 - dur / 2400000). unfold Tx, MaxCount. cbn [dev log maxCount fst snd].
  rewrite last_atime_snoc. unfold atime_write. rewrite Z.eqb_refl.
  split; reflexivity.
Qed.

Lemma Quiet_follows {A : Type} (m : M A) (d : Dev) :
  Quiet m ->
  follows_atime false storedMaxCount d ->
  follows_atime false storedMaxCount (snd (m d)).
Proof.
  intros Hq (a & Ha & Hm). destruct (Hq d) as [H1 H2].
  exists a. unfold MaxCount in *. split; congruence.
Qed.

Lemma exec_follows (c : Call) (d : Dev) :
  follows_atime false storedMaxCount d ->
  follows_atime false storedMaxCount (exec c d).
Proof.
  intros Hd. destruct c as [dur|g| | |l| |]; cbn [exec].
  - apply SetIntegrationTime_follows. exact Hd.
  - apply Quiet_follows; [apply Quiet_SetGain|exact Hd].
  - apply Quiet_follows; [apply Quiet_Valid|exact Hd].
  - apply Quiet_follows; [apply Quiet_MeasureRaw|exact Hd].
  - apply Quiet_follows; [apply Quiet_Measure|exact Hd].
  - apply Quiet_follows; [apply Quiet_Halt|exact Hd].
  - exact Hd.
Qed.

Lemma run_follows (cs : list Call) :
  forall d, follows_atime false storedMaxCount d ->
            follows_atime false storedMaxCount (run cs d).
Proof.
  induction cs as [|c cs IH]; intros d Hd.
  - exact Hd.
  - cbn [run fold_left]. apply IH. apply exec_follows. exact Hd.
Qed.

Lemma New_follows (b b' : Bus) (d : Dev) :
  New b = ((Some d, None), b') -> follows_atime false storedMaxCount d.
Proof.
  unfold New, devReadUint8, devWriteUint8. cbn [dev maxCount].
  destruct (ReadUint8 cmdChipID b) as [[id err] b1]. cbn [dev].
  destruct err as [e0|]; [discriminate|].
  destruct (negb (id =? chipID) && negb (id =? chipIDAlt)); [discriminate|].
  destruct (WriteUint8 cmdEnable (Z.lor enablePower enableRGBC) b1) as [err b2].
  cbn [dev]. destruct err as [e1|]; [discriminate|].
  rewrite default_integration_time. cbn [dev].
  destruct (to_error (fst (Tx (WrU8 cmdATime 43) b2))); [discriminate|].
  intros H; inversion H; subst. exists 43.
  unfold Tx, MaxCount. cbn [dev log maxCount fst snd]. rewrite last_atime_snoc.
  split; reflexivity.
Qed.

(** C4, as the code has it. After a successful New and any sequence of
    calls on the handle, MaxCount is the count SetIntegrationTime derives
    from the ATIME value of the last ATIME write attempted on the bus,
    acknowledged or not; and no call other than SetIntegrationTime changes
    maxCount. *)
Theorem maxCount_follows_last_atime_write :
  (forall (b b' : Bus) (d : Dev) (cs : list Call),
      New b = ((Some d, None), b') ->
      exists a, last_atime false (log (dev (run cs d))) = Some a /\
                MaxCount (run cs d) = Z.min (a * 1024) 65535) /\
  (forall (c : Call) (d : Dev),
      (forall dur, c <> CallSetIntegrationTime dur) ->
      MaxCount (exec c d) = MaxCount d).
Proof.
  split.
  - intros b b' d cs HNew.
    exact (run_follows cs d (New_follows b b' d HNew)).
  - intros c d Hc. exact (proj1 (exec_quiet c d Hc)).
Qed.

Lemma maxCount_follows_last_atime_write_witness :
  let b := Sim.failing_at 4 (Sim.sensor 0x44 0x11 1000 300 400 300) in
  let cs := [CallValid; CallSetIntegrationTime (612 * time.Millisecond);
             CallMeasureRaw; CallSetGain G16x; CallHalt] in
  exists d, fst (New b) = (Some d, None) /\
            last_atime false (log (dev (run cs d))) = Some 0 /\
            last_atime true (log (dev (run cs d))) = Some 43 /\
            MaxCount (run cs d) = 0 /\
            MaxCount (exec CallHalt d) = MaxCount d.
Proof.
  intros b cs. eexists. split; [reflexivity|].
  destruct (proj1 maxCount_follows_last_atime_write b _ _ cs eq_refl) as (a & Ha & Hm).
  assert (Ha0 : a = 0) by (vm_compute in Ha; congruence). subst a.
  split; [exact Ha|]. split; [reflexivity|]. split; [exact Hm|].
  apply (proj2 maxCount_follows_last_atime_write). discriminate.
Defined.

(** C4 as the specification words it fails: after New has written ATIME 43
    successfully, a SetIntegrationTime(612 ms) whose register write fails
    leaves MaxCount at 0, which is neither the count the driver derives from
    43 (44032) nor the documented one (65535). *)
Lemma maxCount_not_last_acked_atime :
  let b := Sim.failing_at 3 (Sim.sensor 0x44 0x11 0 0 0 0) in
  let cs := [CallSetIntegrationTime (612 * time.Millisecond)] in
  exists d, fst (New b) = (Some d, None) /\
            fst (SetIntegrationTime (612 * time.Millisecond) d)
              = Some (TransportError "i/o error") /\
            last_atime true (log (dev (run cs d))) = Some 43 /\
            MaxCount (run cs d) = 0 /\
            ~ follows_atime true storedMaxCount (run cs d) /\
            ~ follows_atime true documentedMaxCount (run cs d).
Proof.
  intros b cs. eexists. split; [reflexivity|].
  split; [reflexivity|]. split; [reflexivity|]. split; [reflexivity|].
  split; intros (a & Ha & Hm); vm_compute in Ha; inversion Ha; subst a;
    vm_compute in Hm; discriminate.
Qed.

(** ** The command-line utility *)

Import Cmd.

Section Utility.

Variable Measure : Light -> M (option error * Light).
Variable Halt : M (option error).

(** When the first Valid says "not ready" without an error, read returns
    nil with the handle as Valid left it: the loop, and Measure with it, is
    never entered, and nothing is printed. *)
Lemma read_not_valid (d d1 : Dev) (interval : time.Duration) (ticks : nat) :
  0 <= interval ->
  Valid d = ((false, None), d1) ->
  read Measure d interval ticks = Some (Done None, [], d1).
Proof.
  intros Hi Hv. unfold read.
  replace (negb (interval =? 0) && (interval <=? 0)) with false.
  - rewrite Hv. reflexivity.
  - symmetry. destruct (Z.eqb_spec interval 0) as [->|Hn]; [reflexivity|].
    cbn [negb andb]. apply Z.leb_gt. lia.
Qed.

(** The process then ends with what Halt returned. *)
Lemma main_not_valid (f : Flags) (h : Host) (ticks : nat)
      (bus b' : Bus) (d d1 d2 : Dev) (err2 : option error) :
  hostInit h = None ->
  i2cOpen h (i2c f) = inl bus ->
  New bus = ((Some d, None), b') ->
  0 <= i f ->
  Valid d = ((false, None), d1) ->
  Halt d1 = (err2, d2) ->
  mainImpl Measure Halt f h ticks = Some (Done err2, [], Some (dev d2)).
Proof.
  intros Hh Ho Hn Hi Hv Hhalt. unfold mainImpl.
  rewrite Hh, Ho, Hn, (read_not_valid d d1 (i f) ticks Hi Hv), Hhalt.
  reflexivity.
Qed.

End Utility.

(** C10. In the utility, when the one Valid call made by read returns
    false with no error, read returns nil at once, for any Measure: the only
    transaction it adds to the bus is the status read (0x93), and nothing is
    printed. The process then calls Halt and, Halt returning nil, exits
    with status 0 with both output streams empty. *)
Theorem read_not_valid_exits_zero :
  forall (Measure : Light -> M (option error * Light)) (Halt : M (option error))
         (f : Flags) (h : Host) (ticks : nat) (bus b' : Bus) (d d1 d2 : Dev),
    hostInit h = None ->
    i2cOpen h (i2c f) = inl bus ->
    New bus = ((Some d, None), b') ->
    0 <= i f ->
    Valid d = ((false, None), d1) ->
    Halt d1 = (None, d2) ->
    read Measure d (i f) ticks = Some (Done None, [], d1) /\
    ops (dev d1) = ops (dev d) ++ [RdU8 0x93] /\
    main Measure Halt f h ticks = Some (mkExit 0 [] [], Some (dev d2)).
Proof.
  intros Measure Halt f h ticks bus b' d d1 d2 Hh Ho Hn Hi Hv Hhalt.
  split; [|split].
  - exact (read_not_valid Measure d d1 (i f) ticks Hi Hv).
  - unfold Valid, bind, devReadUint8 in Hv.
    destruct (ReadUint8 cmdStatus (dev d)) as [[st err] b1] eqn:Hrd.
    pose proof (ReadUint8_ops _ _ _ _ Hrd) as Hops.
    destruct err; inversion Hv; subst; exact Hops.
  - unfold main.
    rewrite (main_not_valid Measure Halt f h ticks bus b' d d1 d2 None
               Hh Ho Hn Hi Hv Hhalt).
    reflexivity.
Qed.

Lemma read_not_valid_exits_zero_witness :
  let bus := Sim.sensor 0x44 0x10 1000 300 400 300 in
  let f := mkFlags "" 0 false in
  let h := mkHost None (fun _ => inl bus) in
  exists d b,
    fst (New bus) = (Some d, None) /\
    fst (Valid d) = (false, None) /\
    read Tcs3472.Measure d 0 0 = Some (Done None, [], snd (Valid d)) /\
    main Tcs3472.Measure Tcs3472.Halt f h 0 = Some (mkExit 0 [] [], Some b) /\
    ops b = [RdU8 0x92; WrU8 0x80 3; WrU8 0x81 43; RdU8 0x93; WrU8 0x80 0].
Proof.
  intros bus f h. eexists. eexists.
  split; [reflexivity|]. split; [reflexivity|].
  destruct (read_not_valid_exits_zero Tcs3472.Measure Tcs3472.Halt f h 0 bus
              _ _ _ _ eq_refl eq_refl eq_refl ltac:(discriminate) eq_refl eq_refl)
    as (Hread & _ & Hmain).
  split; [exact Hread|]. split; [exact Hmain|]. reflexivity.
Defined.

(** With the stub Halt of tcs3472.go the exit status is 0 whatever the bus
    does afterwards. *)
Lemma Prev_not_valid_exits_zero (f : Flags) (h : Host) (ticks : nat)
      (bus b' : Bus) (d d1 : Dev) :
  hostInit h = None ->
  i2cOpen h (i2c f) = inl bus ->
  New bus = ((Some d, None), b') ->
  0 <= i f ->
  Valid d = ((false, None), d1) ->
  main Tcs3472Prev.Measure Tcs3472Prev.Halt f h ticks
  = Some (mkExit 0 [] [], Some (dev d1)).
Proof.
  intros Hh Ho Hn Hi Hv. unfold main.
  rewrite (main_not_valid Tcs3472Prev.Measure Tcs3472Prev.Halt f h ticks
             bus b' d d1 d1 None Hh Ho Hn Hi Hv eq_refl).
  reflexivity.
Qed.

(** Two runs of the utility. With valid data and no interval, one reading
    is printed and the status is 0. With "not ready" and a Halt whose write
    fails, that failure is what the process reports: status 1, nothing on
    standard output. *)
Lemma utility_runs :
  (let bus := Sim.sensor 0x44 0x11 1000 300 400 300 in
   let f := mkFlags "" 0 false in
   let h := mkHost None (fun _ => inl bus) in
   option_map fst (main Tcs3472.Measure Tcs3472.Halt f h 0)
   = Some (mkExit 0 [mkLight 1000 (S754_finite false 10066330 (-25))
                                  (S754_finite false 13421773 (-25))
                                  (S754_finite false 10066330 (-25))] [])) /\
  (let bus := Sim.failing_at 4 (Sim.sensor 0x44 0x10 1000 300 400 300) in
   let f := mkFlags "" 0 false in
   let h := mkHost None (fun _ => inl bus) in
   option_map fst (main Tcs3472.Measure Tcs3472.Halt f h 0)
   = Some (mkExit 1 [] [("tcs3472: i/o error." ++ String "010" "")%string])).
Proof. split; reflexivity. Qed.

(** ** What the driver sends on the bus *)

Import Traffic.

Lemma Emits_ret {A : Type} (P : Op -> bool) (x : A) : Emits P (ret x).
Proof. intros d. exists []. rewrite app_nil_r. split; reflexivity. Qed.

Lemma Emits_bind {A C : Type} (P : Op -> bool) (m : M A) (k : A -> M C) :
  Emits P m -> (forall x, Emits P (k x)) -> Emits P (bind m k).
Proof.
  intros Hm Hk d. unfold bind. destruct (Hm d) as (e1 & Hl1 & Hp1).
  destruct (m d) as [x d1]. cbn [snd] in Hl1.
  destruct (Hk x d1) as (e2 & Hl2 & Hp2).
  exists (e1 ++ e2). rewrite Hl2, Hl1, <- app_assoc. split; [reflexivity|].
  rewrite forallb_app. apply andb_true_iff. split; assumption.
Qed.

Lemma Emits_devReadUint8 (P : Op -> bool) (reg : Z) :
  P (RdU8 reg) = true -> Emits P (devReadUint8 reg).
Proof.
  intros HP d. unfold devReadUint8, ReadUint8, Tx. cbn [snd dev log].
  eexists. split; [reflexivity|]. cbn [forallb fst]. rewrite HP. reflexivity.
Qed.

Lemma Emits_devReadUint16 (P : Op -> bool) (reg : Z) :
  P (RdU16 reg) = true -> Emits P (devReadUint16 reg).
Proof.
  intros HP d. unfold devReadUint16, ReadUint16, Tx. cbn [snd dev log].
  eexists. split; [reflexivity|]. cbn [forallb fst]. rewrite HP. reflexivity.
Qed.

Lemma Emits_devWriteUint8 (P : Op -> bool) (reg v : Z) :
  P (WrU8 reg v) = true -> Emits P (devWriteUint8 reg v).
Proof.
  intros HP d. unfold devWriteUint8, WriteUint8, Tx. cbn [snd dev log].
  eexists. split; [reflexivity|]. cbn [forallb fst]. rewrite HP. reflexivity.
Qed.

(** The reading methods, for any P that lets their reads through. *)
Section Readers.

Variable P : Op -> bool.
Hypothesis P_status : P (RdU8 cmdStatus) = true.
Hypothesis P_clear : P (RdU16 cmdReadClear) = true.
Hypothesis P_red : P (RdU16 cmdReadRed) = true.
Hypothesis P_green : P (RdU16 cmdReadGreen) = true.
Hypothesis P_blue : P (RdU16 cmdReadBlue) = true.

Lemma Emits_MeasureRaw : Emits P MeasureRaw.
Proof.
  unfold MeasureRaw.
  apply Emits_bind; [apply Emits_devReadUint16; assumption|].
  intros [v1 [e1|]]; [apply Emits_ret|].
  apply Emits_bind; [apply Emits_devReadUint16; assumption|].
  intros [v2 [e2|]]; [apply Emits_ret|].
  apply Emits_bind; [apply Emits_devReadUint16; assumption|].
  intros [v3 [e3|]]; [apply Emits_ret|].
  apply Emits_bind; [apply Emits_devReadUint16; assumption|].
  intros [v4 [e4|]]; apply Emits_ret.
Qed.

Lemma Emits_Measure (l : Light) : Emits P (Measure l).
Proof.
  unfold Measure. apply Emits_bind; [exact Emits_MeasureRaw|].
  intros [vals [e|]]; apply Emits_ret.
Qed.


Lemma Emits_Valid : Emits P Valid.
Proof.
  unfold Valid. apply Emits_bind; [apply Emits_devReadUint8; assumption|].
  intros [st [e|]]; apply Emits_ret.
Qed.

End Readers.


Lemma uint8_byte (z : Z) : 0 <= z <= 255 -> uint8 z = z.
Proof. intros H. unfold uint8. change (2 ^ 8) with 256. apply Z.mod_small. lia. Qed.


(** SetIntegrationTime sends nothing, or one write to ATIME. *)
Lemma SetIntegrationTime_sends (dur : time.Duration) (d : Dev) :
  log (dev (snd (SetIntegrationTime dur d))) = log (dev d) \/
  exists v r, log (dev (snd (SetIntegrationTime dur d))) = log (dev d) ++ [(WrU8 cmdATime v, r)].
Proof.
  destruct (Z_lt_dec dur (2400 * time.Microsecond)) as [Hlo|Hlo].
  { left. rewrite SetIntegrationTime_out_of_range by (left; exact Hlo). reflexivity. }
  destruct (Z_gt_dec dur (612 * time.Millisecond)) as [Hhi|Hhi].
  { left. rewrite SetIntegrationTime_out_of_range by (right; exact Hhi). reflexivity. }
  assert (H : 2400 * time.Microsecond <= dur <= 612 * time.Millisecond) by lia.
  right. rewrite (SetIntegrationTime_eq dur H d). unfold Tx. cbn [snd dev log].
  eauto.
Qed.




(** What New sends: the ID read, then the enable write, then the ATIME
    write, stopping at the first that fails. *)
Lemma New_ops (b : Bus) :
  exists k, (1 <= k <= 3)%nat /\
            ops (snd (New b)) = ops b ++ firstn k [RdU8 0x92; WrU8 0x80 3; WrU8 0x81 43] /\
            (fst (fst (New b)) <> None -> k = 3%nat).
Proof.
  unfold New, devReadUint8, devWriteUint8. cbn [dev maxCount].
  destruct (ReadUint8 cmdChipID b) as [[id err] b1] eqn:Hrd. cbn [dev].
  pose proof (ReadUint8_ops _ _ _ _ Hrd) as H1.
  destruct err as [e0|].
  { exists 1%nat. cbn [fst snd]. split; [lia|]. split; [exact H1|]. congruence. }
  destruct (negb (id =? chipID) && negb (id =? chipIDAlt)).
  { exists 1%nat. cbn [fst snd]. split; [lia|]. split; [exact H1|]. congruence. }
  destruct (WriteUint8 cmdEnable (Z.lor enablePower enableRGBC) b1) as [err b2] eqn:Hen.
  cbn [dev]. pose proof (WriteUint8_ops _ _ _ _ _ Hen) as H2.
  destruct err as [e1|].
  { exists 2%nat. cbn [fst snd]. split; [lia|]. split; [|congruence].
    rewrite H2, H1, <- app_assoc. reflexivity. }
  rewrite default_integration_time. cbn [dev].
  assert (H3 : ops (snd (Tx (WrU8 cmdATime 43) b2)) = ops b2 ++ [WrU8 cmdATime 43]).
  { unfold ops, Tx. cbn [snd log]. rewrite map_app. reflexivity. }
  exists 3%nat. split; [lia|].
  destruct (to_error (fst (Tx (WrU8 cmdATime 43) b2))); cbn [fst snd dev];
    (split; [rewrite H3, H2, H1, <- !app_assoc; reflexivity|reflexivity]).
Qed.


(** ** The gain register *)

Lemma gain_writes_app (l1 l2 : list Op) :
  gain_writes (l1 ++ l2) = gain_writes l1 ++ gain_writes l2.
Proof. unfold gain_writes. apply flat_map_app. Qed.

Lemma gain_writes_none (evs : list Event) :
  forallb (fun ev => not_gain (fst ev)) evs = true -> gain_writes (map fst evs) = [].
Proof.
  induction evs as [|[op r] evs IH]; intros H; [reflexivity|].
  cbn [forallb fst] in H. apply andb_true_iff in H. destruct H as [Hop Hevs].
  specialize (IH Hevs). unfold gain_writes in *. cbn [map fst flat_map].
  rewrite IH, app_nil_r. unfold not_gain in Hop.
  destruct (gain_write op); [reflexivity|discriminate].
Qed.

(** A method that sends no gain write leaves the gain writes as they were. *)
Lemma Emits_not_gain {A : Type} (m : M A) (d : Dev) :
  Emits not_gain m ->
  gain_writes (ops (dev (snd (m d)))) = gain_writes (ops (dev d)).
Proof.
  intros Hm. destruct (Hm d) as (evs & Hl & Hp). unfold ops.
  rewrite Hl, map_app, gain_writes_app.
  transitivity (gain_writes (map fst (log (dev d))) ++ []); [|apply app_nil_r].
  f_equal. exact (gain_writes_none evs Hp).
Qed.

Lemma SetGain_ops (g : Gain) (d : Dev) :
  ops (dev (snd (SetGain g d))) = ops (dev d) ++ [WrU8 cmdGain (uint8 g)].
Proof.
  unfold SetGain, devWriteUint8, WriteUint8, Tx, ops. cbn [snd dev log].
  rewrite map_app. reflexivity.
Qed.

Lemma exec_gain (c : Call) (d : Dev) :
  gain_writes (ops (dev (exec c d))) = gain_writes (ops (dev d)) ++ gain_asked c.
Proof.
  destruct c as [dur|g| | |l| |]; cbn [exec gain_asked]; rewrite ?app_nil_r.
  - destruct (SetIntegrationTime_sends dur d) as [H|(v & r & H)]; unfold ops; rewrite H.
    + reflexivity.
    + rewrite map_app, gain_writes_app. cbn [map fst]. rewrite app_nil_r. reflexivity.
  - rewrite SetGain_ops, gain_writes_app. reflexivity.
  - apply (Emits_not_gain Valid), Emits_Valid; reflexivity.
  - apply (Emits_not_gain MeasureRaw), Emits_MeasureRaw; reflexivity.
  - apply (Emits_not_gain (Measure l)), Emits_Measure; reflexivity.
  - apply (Emits_not_gain Halt), (Emits_devWriteUint8 not_gain cmdEnable 0). reflexivity.
  - reflexivity.
Qed.

Lemma run_gain (cs : list Call) :
  forall d, gain_writes (ops (dev (run cs d))) = gain_writes (ops (dev d)) ++ gains_asked cs.
Proof.
  induction cs as [|c cs IH]; intros d.
  - cbn. rewrite app_nil_r. reflexivity.
  - cbn [run fold_left]. unfold run in IH. rewrite IH, exec_gain, <- app_assoc.
    reflexivity.
Qed.

(** What reaches the gain register over a handle's lifetime is what the
    callers of SetGain passed, byte for byte and in call order, whether or
    not the device acknowledged the writes: no other method and not New
    writes that register, and SetGain neither checks nor changes its
    argument, so a byte that is none of the four named gains is written as
    it is. When only named gains are passed, only the codes 0 to 3 are
    written. *)
Theorem gain_register_gets_what_SetGain_is_given :
  (forall (cs : list Call) (d : Dev),
      gain_writes (ops (dev (run cs d))) = gain_writes (ops (dev d)) ++ gains_asked cs) /\
  (forall b : Bus, gain_writes (ops (snd (New b))) = gain_writes (ops b)) /\
  (forall (g : Gain) (d : Dev),
      0 <= g <= 255 ->
      let r := respond (dev d) (log (dev d)) (WrU8 0x8F g) in
      SetGain g d = (to_error r, mkDev (mkBus (respond (dev d)) (log (dev d) ++ [(WrU8 0x8F g, r)]))
                                       (maxCount d))) /\
  (forall cs : list Call,
      (forall g, In (CallSetGain g) cs -> In g [G1x; G4x; G16x; G60x]) ->
      forall v, In v (gains_asked cs) -> 0 <= v <= 3).
Proof.
  split; [|split; [|split]].
  - intros cs d. apply run_gain.
  - intros b. destruct (New_ops b) as (k & Hk & Hops & _). rewrite Hops, gain_writes_app.
    destruct k as [|[|[|[|k]]]]; try lia; cbn; rewrite app_nil_r; reflexivity.
  - intros g d Hg r. subst r. unfold SetGain, devWriteUint8, WriteUint8, Tx.
    cbn [fst snd dev log maxCount]. rewrite (uint8_byte g Hg). reflexivity.
  - intros cs Hcs v Hv. unfold gains_asked in Hv. apply in_flat_map in Hv.
    destruct Hv as (c & Hc & Hvc). destruct c as [dur|g| | |l| |]; cbn in Hvc; try tauto.
    destruct Hvc as [<-|[]]. specialize (Hcs g Hc). cbn in Hcs.
    destruct Hcs as [<-|[<-|[<-|[<-|[]]]]]; cbv; split; discriminate.
Qed.

Lemma gain_register_gets_what_SetGain_is_given_witness :
  let d := mkDev (Sim.failing_at 1 (Sim.sensor 0x44 0x11 1000 300 400 300)) 44032 in
  let cs := [CallSetGain G60x; CallSetGain 200; CallValid; CallSetGain G1x] in
  gain_writes (ops (dev (run cs d))) = [3; 200; 0] /\
  fst (SetGain 200 d) = None /\
  ops (dev (snd (SetGain 200 d))) = [WrU8 0x8F 200] /\
  (forall v, In v (gains_asked [CallSetGain G60x; CallValid; CallSetGain G1x]) ->
             0 <= v <= 3).
Proof.
  intros d cs.
  destruct gain_register_gets_what_SetGain_is_given as (Hrun & _ & Hset & Hnamed).
  split; [rewrite Hrun; reflexivity|].
  rewrite (Hset 200 d ltac:(lia)). split; [reflexivity|]. split; [reflexivity|].
  apply Hnamed. intros g [H|[H|[H|[]]]]; inversion H; cbn; tauto.
Defined.

Lemma exec_reads (c : Call) (d : Dev) :
  read_only c = true ->
  exists evs, log (dev (exec c d)) = log (dev d) ++ evs /\
              forallb (fun ev => is_read (fst ev)) evs = true /\
              maxCount (exec c d) = maxCount d.
Proof.
  intros Hc.
  assert (Hq : maxCount (exec c d) = maxCount d).
  { apply exec_quiet. intros dur ->. discriminate. }
  destruct c as [dur|g| | |l| |]; try discriminate; cbn [exec] in *.
  - destruct (Emits_Valid is_read eq_refl d) as (evs & Hl & Hp). eauto.
  - destruct (Emits_MeasureRaw is_read eq_refl eq_refl eq_refl eq_refl d)
      as (evs & Hl & Hp). eauto.
  - destruct (Emits_Measure is_read eq_refl eq_refl eq_refl eq_refl l d)
      as (evs & Hl & Hp). eauto.
  - exists []. rewrite app_nil_r. auto.
Qed.

(** Valid, MeasureRaw, Measure and MaxCount, in any number and order, only
    read: they send no write, so they cannot change the configuration of
    the sensor, and they leave maxCount alone. *)
Theorem read_only_calls_never_write :
  forall (cs : list Call) (d : Dev),
    forallb read_only cs = true ->
    exists evs, log (dev (run cs d)) = log (dev d) ++ evs /\
                forallb (fun ev => is_read (fst ev)) evs = true /\
                MaxCount (run cs d) = MaxCount d.
Proof.
  induction cs as [|c cs IH]; intros d Hcs.
  - exists []. rewrite app_nil_r. auto.
  - cbn [forallb] in Hcs. apply andb_true_iff in Hcs. destruct Hcs as [Hc Hcs].
    destruct (exec_reads c d Hc) as (e1 & Hl1 & Hp1 & Hm1).
    destruct (IH (exec c d) Hcs) as (e2 & Hl2 & Hp2 & Hm2).
    exists (e1 ++ e2). cbn [run fold_left]. unfold run in Hl2, Hm2.
    rewrite Hl2, Hl1, <- app_assoc. split; [reflexivity|]. split.
    + rewrite forallb_app. apply andb_true_iff. split; assumption.
    + unfold MaxCount in *. congruence.
Qed.

Lemma read_only_calls_never_write_witness :
  let d := mkDev (Sim.sensor 0x44 0x11 1000 300 400 300) 44032 in
  let cs := [CallValid; CallMeasure (mkLight 0 float32_zero float32_zero float32_zero);
             CallMaxCount; CallMeasureRaw] in
  ops (dev (run cs d)) =
    [RdU8 0x93; RdU16 0xB4; RdU16 0xB6; RdU16 0xB8; RdU16 0xBA;
     RdU16 0xB4; RdU16 0xB6; RdU16 0xB8; RdU16 0xBA] /\
  MaxCount (run cs d) = 44032.
Proof.
  intros d cs.
  destruct (read_only_calls_never_write cs d eq_refl) as (evs & Hl & Hp & Hm).
  split; [reflexivity|exact Hm].
Defined.

(** ** The values of maxCount *)

Lemma count_shape_stored (a : Z) : 0 <= a <= 254 -> count_shape (Z.min (a * 1024) 65535).
Proof.
  intros Ha. unfold count_shape. split; [lia|].
  destruct (Z_le_dec 65535 (a * 1024)) as [Hc|Hc].
  - left. lia.
  - right. rewrite Z.min_l by lia. apply Z_mod_mult.
Qed.

Lemma exec_shape (c : Call) (d : Dev) :
  count_shape (maxCount d) -> count_shape (maxCount (exec c d)).
Proof.
  intros Hd.
  assert (Hq : (forall dur, c <> CallSetIntegrationTime dur) ->
               count_shape (maxCount (exec c d))).
  { intros Hc. rewrite (proj1 (exec_quiet c d Hc)). exact Hd. }
  destruct c as [dur|g| | |l| |]; try (apply Hq; discriminate).
  cbn [exec].
  destruct (Z_lt_dec dur (2400 * time.Microsecond)) as [Hlo|Hlo].
  { rewrite SetIntegrationTime_out_of_range by (left; exact Hlo). exact Hd. }
  destruct (Z_gt_dec dur (612 * time.Millisecond)) as [Hhi|Hhi].
  { rewrite SetIntegrationTime_out_of_range by (right; exact Hhi). exact Hd. }
  assert (H : 2400 * time.Microsecond <= dur <= 612 * time.Millisecond) by lia.
  rewrite (SetIntegrationTime_eq dur H d). cbn [snd maxCount].
  pose proof (steps_bounds dur H). apply count_shape_stored. lia.
Qed.

Lemma run_shape (cs : list Call) :
  forall d, count_shape (maxCount d) -> count_shape (maxCount (run cs d)).
Proof.
  induction cs as [|c cs IH]; intros d Hd; [exact Hd|].
  cbn [run fold_left]. apply IH. apply exec_shape. exact Hd.
Qed.

Lemma New_maxCount (b b' : Bus) (d : Dev) :
  New b = ((Some d, None), b') -> maxCount d = 44032.
Proof.
  unfold New, devReadUint8, devWriteUint8. cbn [dev maxCount].
  destruct (ReadUint8 cmdChipID b) as [[id err] b1]. cbn [dev].
  destruct err as [e0|]; [discriminate|].
  destruct (negb (id =? chipID) && negb (id =? chipIDAlt)); [discriminate|].
  destruct (WriteUint8 cmdEnable (Z.lor enablePower enableRGBC) b1) as [err b2].
  cbn [dev]. destruct err as [e1|]; [discriminate|].
  rewrite default_integration_time. cbn [dev].
  destruct (to_error (fst (Tx (WrU8 cmdATime 43) b2))); [discriminate|].
  intros H; inversion H; subst. reflexivity.
Qed.

(** After a successful New and any sequence of calls, MaxCount is between 0
    and 65535 and is either the cap 65535 or a multiple of 1024; straight
    after New it is 44032. *)
Theorem maxCount_shape :
  forall (b b' : Bus) (d : Dev) (cs : list Call),
    New b = ((Some d, None), b') ->
    MaxCount d = 44032 /\
    0 <= MaxCount (run cs d) <= 65535 /\
    (MaxCount (run cs d) = 65535 \/ MaxCount (run cs d) mod 1024 = 0).
Proof.
  intros b b' d cs HNew. pose proof (New_maxCount b b' d HNew) as H0.
  split; [exact H0|]. apply (run_shape cs d). unfold count_shape.
  rewrite H0. split; [lia|right; reflexivity].
Qed.

Lemma maxCount_shape_witness :
  let b := Sim.failing_at 4 (Sim.sensor 0x44 0x11 1000 300 400 300) in
  let cs := [CallSetIntegrationTime (100 * time.Millisecond);
             CallSetIntegrationTime (600 * time.Millisecond); CallHalt] in
  exists d, fst (New b) = (Some d, None) /\
            MaxCount (run cs d) = 5120 /\ 5120 mod 1024 = 0.
Proof.
  intros b cs. eexists. split; [reflexivity|].
  destruct (maxCount_shape b _ _ cs eq_refl) as (_ & _ & Hs).
  split; [reflexivity|]. destruct Hs as [Hs|Hs]; [discriminate Hs|exact Hs].
Defined.

(** ** SetIntegrationTime over the range *)

(** In range the stored count does not grow with the duration asked for: a
    longer duration never gives a larger ATIME code or a larger maxCount.
    Two durations in the same step of 2.4 ms give the same code and the
    same count. *)
Theorem SetIntegrationTime_antitone :
  forall (d1 d2 : time.Duration) (h1 h2 : Dev),
    2400 * time.Microsecond <= d1 <= 612 * time.Millisecond ->
    2400 * time.Microsecond <= d2 <= 612 * time.Millisecond ->
    d1 <= d2 ->
    exists a1 a2 r1 r2,
      log (dev (snd (SetIntegrationTime d1 h1))) = log (dev h1) ++ [(WrU8 0x81 a1, r1)] /\
      log (dev (snd (SetIntegrationTime d2 h2))) = log (dev h2) ++ [(WrU8 0x81 a2, r2)] /\
      0 <= a2 <= a1 /\ a1 <= 254 /\
      MaxCount (snd (SetIntegrationTime d2 h2)) <= MaxCount (snd (SetIntegrationTime d1 h1)) /\
      (d1 / 2400000 = d2 / 2400000 ->
       a1 = a2 /\
       MaxCount (snd (SetIntegrationTime d2 h2)) = MaxCount (snd (SetIntegrationTime d1 h1))).
Proof.
  intros d1 d2 h1 h2 H1 H2 Hle.
  rewrite (SetIntegrationTime_eq d1 H1 h1), (SetIntegrationTime_eq d2 H2 h2).
  unfold Tx, MaxCount. cbn [snd dev log maxCount].
  exists (255 - d1 / 2400000), (255 - d2 / 2400000). do 2 eexists.
  split; [reflexivity|]. split; [reflexivity|].
  pose proof (steps_bounds d1 H1) as Hq1. pose proof (steps_bounds d2 H2) as Hq2.
  assert (Hm : d1 / 2400000 <= d2 / 2400000) by (apply Z.div_le_mono; lia).
  split; [lia|]. split; [lia|]. split; [lia|].
  intros Heq. rewrite Heq. split; reflexivity.
Qed.

Lemma SetIntegrationTime_antitone_witness :
  let h := mkDev (Sim.sensor 0x44 0x11 0 0 0 0) 0 in
  MaxCount (snd (SetIntegrationTime (600 * time.Millisecond) h)) = 5120 /\
  MaxCount (snd (SetIntegrationTime (500 * time.Millisecond) h)) = 48128 /\
  MaxCount (snd (SetIntegrationTime (600 * time.Millisecond) h))
  <= MaxCount (snd (SetIntegrationTime (500 * time.Millisecond) h)).
Proof.
  intros h.
  destruct (SetIntegrationTime_antitone (500 * time.Millisecond) (600 * time.Millisecond) h h)
    as (a1 & a2 & r1 & r2 & _ & _ & _ & _ & Hle & _).
  - cbv; split; discriminate.
  - cbv; split; discriminate.
  - cbv; discriminate.
  - split; [reflexivity|]. split; [reflexivity|exact Hle].
Defined.

(** ** New: a handle or an error *)

(** New returns either a handle with a nil error or no handle with an
    error, never both and never neither. With a handle, the three
    transactions of New are on the bus and maxCount is 44032. *)
Theorem New_handle_or_error :
  forall b : Bus,
    (exists d, fst (New b) = (Some d, None) /\
               dev d = snd (New b) /\ MaxCount d = 44032 /\
               ops (snd (New b)) = ops b ++ [RdU8 0x92; WrU8 0x80 3; WrU8 0x81 43]) \/
    (exists e, fst (New b) = (None, Some e)).
Proof.
  intros b. destruct (New b) as [[hd err] b'] eqn:HNew. cbn [fst snd].
  destruct hd as [d|], err as [e|].
  - exfalso. revert HNew. unfold New, devReadUint8, devWriteUint8. cbn [dev maxCount].
    destruct (ReadUint8 cmdChipID b) as [[id err] b1]. cbn [dev].
    destruct err; [discriminate|].
    destruct (negb (id =? chipID) && negb (id =? chipIDAlt)); [discriminate|].
    destruct (WriteUint8 cmdEnable (Z.lor enablePower enableRGBC) b1) as [err b2].
    cbn [dev maxCount]. destruct err; [discriminate|].
    destruct (SetIntegrationTime (511 * time.Millisecond) (mkDev b2 0)) as [err d3].
    destruct err; discriminate.
  - left. exists d. split; [reflexivity|].
    pose proof (New_maxCount b b' d HNew) as Hm.
    destruct (New_ops b) as (k & Hk & Hops & Hk3). rewrite HNew in Hops, Hk3.
    cbn [fst snd] in Hops, Hk3. rewrite (Hk3 ltac:(discriminate)) in Hops.
    split; [|split; [exact Hm|exact Hops]].
    revert HNew. unfold New, devReadUint8, devWriteUint8. cbn [dev maxCount].
    destruct (ReadUint8 cmdChipID b) as [[id err] b1]. cbn [dev].
    destruct err; [discriminate|].
    destruct (negb (id =? chipID) && negb (id =? chipIDAlt)); [discriminate|].
    destruct (WriteUint8 cmdEnable (Z.lor enablePower enableRGBC) b1) as [err b2].
    cbn [dev maxCount]. destruct err; [discriminate|].
    destruct (SetIntegrationTime (511 * time.Millisecond) (mkDev b2 0)) as [err d3].
    destruct err; [discriminate|]. intros H; inversion H; subst. reflexivity.
  - right. exists e. reflexivity.
  - exfalso. revert HNew. unfold New, devReadUint8, devWriteUint8. cbn [dev maxCount].
    destruct (ReadUint8 cmdChipID b) as [[id err] b1]. cbn [dev].
    destruct err; [discriminate|].
    destruct (negb (id =? chipID) && negb (id =? chipIDAlt)); [discriminate|].
    destruct (WriteUint8 cmdEnable (Z.lor enablePower enableRGBC) b1) as [err b2].
    cbn [dev maxCount]. destruct err; [discriminate|].
    destruct (SetIntegrationTime (511 * time.Millisecond) (mkDev b2 0)) as [err d3].
    destruct err; discriminate.
Qed.

(** The three ways a transaction of New can fail. A failed ID read is
    returned as it is, whatever byte came with it. A failed enable write is
    returned and ATIME is not written. A failed ATIME write is returned
    after the enable write has gone through: the sensor is switched on and
    the caller gets no handle to halt it with. *)
Theorem New_transport_failures :
  forall (b b1 b2 b3 : Bus) (id : Z) (e : error),
    (ReadUint8 cmdChipID b = ((id, Some e), b1) ->
     New b = ((None, Some e), b1) /\ ops b1 = ops b ++ [RdU8 0x92]) /\
    (ReadUint8 cmdChipID b = ((id, None), b1) ->
     id = chipID \/ id = chipIDAlt ->
     WriteUint8 cmdEnable (Z.lor enablePower enableRGBC) b1 = (Some e, b2) ->
     New b = ((None, Some e), b2) /\ ops b2 = ops b ++ [RdU8 0x92; WrU8 0x80 3]) /\
    (ReadUint8 cmdChipID b = ((id, None), b1) ->
     id = chipID \/ id = chipIDAlt ->
     WriteUint8 cmdEnable (Z.lor enablePower enableRGBC) b1 = (None, b2) ->
     WriteUint8 cmdATime 43 b2 = (Some e, b3) ->
     New b = ((None, Some e), b3) /\
     ops b3 = ops b ++ [RdU8 0x92; WrU8 0x80 3; WrU8 0x81 43]).
Proof.
  intros b b1 b2 b3 id e. split; [|split].
  - intros Hrd. split; [|exact (ReadUint8_ops _ _ _ _ Hrd)].
    unfold New, devReadUint8. cbn [dev maxCount]. rewrite Hrd. reflexivity.
  - intros Hrd Hid Hen. split.
    + unfold New, devReadUint8, devWriteUint8. cbn [dev maxCount].
      rewrite Hrd. cbn [dev maxCount].
      assert (Hc : negb (id =? chipID) && negb (id =? chipIDAlt) = false)
        by (destruct Hid; subst; reflexivity).
      rewrite Hc, Hen. reflexivity.
    + rewrite (WriteUint8_ops _ _ _ _ _ Hen), (ReadUint8_ops _ _ _ _ Hrd).
      rewrite <- app_assoc. reflexivity.
  - intros Hrd Hid Hen Hat. split.
    + unfold New, devReadUint8, devWriteUint8. cbn [dev maxCount].
      rewrite Hrd. cbn [dev maxCount].
      assert (Hc : negb (id =? chipID) && negb (id =? chipIDAlt) = false)
        by (destruct Hid; subst; reflexivity).
      rewrite Hc, Hen. cbn [dev maxCount]. rewrite default_integration_time.
      cbn [dev]. unfold WriteUint8 in Hat.
      destruct (Tx (WrU8 cmdATime 43) b2) as [r b']. cbn [fst snd].
      inversion Hat as [[He Hb]]. rewrite He. reflexivity.
    + rewrite (WriteUint8_ops _ _ _ _ _ Hat), (WriteUint8_ops _ _ _ _ _ Hen),
        (ReadUint8_ops _ _ _ _ Hrd).
      rewrite <- !app_assoc. reflexivity.
Qed.

Lemma New_transport_failures_witness :
  let b := Sim.failing_at 2 (Sim.sensor 0x44 0x11 0 0 0 0) in
  fst (New b) = (None, Some (TransportError "i/o error")) /\
  ops (snd (New b)) = [RdU8 0x92; WrU8 0x80 3; WrU8 0x81 43].
Proof.
  intros b.
  set (b1 := snd (ReadUint8 cmdChipID b)).
  set (b2 := snd (WriteUint8 cmdEnable (Z.lor enablePower enableRGBC) b1)).
  set (b3 := snd (WriteUint8 cmdATime 43 b2)).
  destruct (New_transport_failures b b1 b2 b3 0x44 (TransportError "i/o error"))
    as (_ & _ & Hat).
  destruct (Hat eq_refl (or_introl eq_refl) eq_refl eq_refl) as (Hn & Ho).
  rewrite Hn. split; [reflexivity|exact Ho].
Defined.

(** ** Measure at the edges of the counts *)

Lemma ReadUint16_range (reg : Z) (b b' : Bus) (v : Z) (e : option error) :
  ReadUint16 reg b = ((v, e), b') -> 0 <= v < 2 ^ 16.
Proof.
  unfold ReadUint16, Tx. intros H; inversion H; subst.
  unfold uint16. apply Z.mod_pos_bound. reflexivity.
Qed.

(** A nonzero 16-bit count converts to a positive finite float32. *)
Lemma float32_of_uint16_finite (x : Z) :
  0 < x < 2 ^ 16 ->
  exists m e, float32_of_uint16 x = S754_finite false m e.
Proof.
  intros Hx. pose proof (float32_of_uint16_exact x ltac:(lia)) as H.
  destruct (float32_of_uint16 x) as [s|s| |s m e]; cbn [float32_holds] in H.
  - destruct s; [discriminate|]. apply Z.eqb_eq in H. lia.
  - discriminate.
  - discriminate.
  - destruct s; [discriminate|]. eauto.
Qed.

Lemma ratio_clear_zero (x : Z) :
  0 <= x < 2 ^ 16 ->
  float32_div (float32_of_uint16 x) (float32_of_uint16 0) =
  if x =? 0 then S754_nan else S754_infinity false.
Proof.
  intros Hx. destruct (Z.eqb_spec x 0) as [->|Hn]; [reflexivity|].
  destruct (float32_of_uint16_finite x ltac:(lia)) as (m & e & ->). reflexivity.
Qed.

Lemma ratio_zero_channel (c : Z) :
  0 < c < 2 ^ 16 ->
  float32_div (float32_of_uint16 0) (float32_of_uint16 c) = float32_zero.
Proof.
  intros Hc. destruct (float32_of_uint16_finite c Hc) as (m & e & ->). reflexivity.
Qed.

Lemma float32_same_eq (x y : float32) : float32_same x y = true -> x = y.
Proof.
  destruct x as [s|s| |s m e], y as [t|t| |t n f]; cbn [float32_same];
    try discriminate; try reflexivity.
  - intros H. apply Bool.eqb_prop in H. congruence.
  - intros H. apply Bool.eqb_prop in H. congruence.
  - intros H. apply andb_true_iff in H. destruct H as [H He].
    apply andb_true_iff in H. destruct H as [Hs Hm].
    apply Bool.eqb_prop in Hs. apply Pos.eqb_eq in Hm. apply Z.eqb_eq in He.
    congruence.
Qed.

Lemma self_ratio_from_spec (n : nat) :
  forall x, self_ratio_from n x = true ->
            forall y, x <= y < x + Z.of_nat n ->
                      float32_div (float32_of_uint16 y) (float32_of_uint16 y) = float32_one.
Proof.
  induction n as [|n IH]; intros x Hall y Hy.
  - lia.
  - cbn [self_ratio_from] in Hall. apply andb_true_iff in Hall.
    destruct Hall as [Hx Hrest].
    destruct (Z.eq_dec y x) as [->|Hne].
    + apply float32_same_eq. exact Hx.
    + apply (IH (x + 1) Hrest). lia.
Qed.

(** A nonzero count divided by itself is exactly 1.0. *)
Lemma ratio_self (c : Z) :
  0 < c < 2 ^ 16 ->
  float32_div (float32_of_uint16 c) (float32_of_uint16 c) = float32_one.
Proof.
  intros Hc. apply (self_ratio_from_spec (Z.to_nat 65535) 1).
  - vm_compute. reflexivity.
  - rewrite Z2Nat.id by lia. change (2 ^ 16) with 65536 in Hc. lia.
Qed.

(** Measure with a clear count of 0 still returns nil: a channel that is 0
    too gives NaN, any other channel gives +infinity. *)
Theorem Measure_clear_zero_any :
  forall (l : Light) (d : Dev) (r g b : Z) (b1 b2 b3 b4 : Bus),
    ReadUint16 cmdReadClear (dev d) = ((0, None), b1) ->
    ReadUint16 cmdReadRed b1 = ((r, None), b2) ->
    ReadUint16 cmdReadGreen b2 = ((g, None), b3) ->
    ReadUint16 cmdReadBlue b3 = ((b, None), b4) ->
    fst (Measure l d) =
    (None, mkLight 0 (if r =? 0 then S754_nan else S754_infinity false)
                     (if g =? 0 then S754_nan else S754_infinity false)
                     (if b =? 0 then S754_nan else S754_infinity false)).
Proof.
  intros l d r g b b1 b2 b3 b4 Hc Hr Hg Hb.
  rewrite (Measure_ok d l 0 r g b b1 b2 b3 b4 Hc Hr Hg Hb). cbn [fst].
  rewrite (ratio_clear_zero r (ReadUint16_range _ _ _ _ _ Hr)),
    (ratio_clear_zero g (ReadUint16_range _ _ _ _ _ Hg)),
    (ratio_clear_zero b (ReadUint16_range _ _ _ _ _ Hb)).
  reflexivity.
Qed.

Lemma Measure_clear_zero_any_witness :
  let d := mkDev (Sim.sensor 0x44 0x11 0 10 0 65535) 44032 in
  let l := mkLight 7 float32_zero float32_zero float32_zero in
  fst (Measure l d) = (None, mkLight 0 (S754_infinity false) S754_nan (S754_infinity false)).
Proof.
  intros d l.
  set (b1 := snd (ReadUint16 cmdReadClear (dev d))).
  set (b2 := snd (ReadUint16 cmdReadRed b1)).
  set (b3 := snd (ReadUint16 cmdReadGreen b2)).
  set (b4 := snd (ReadUint16 cmdReadBlue b3)).
  exact (Measure_clear_zero_any l d 10 0 65535 b1 b2 b3 b4
           eq_refl eq_refl eq_refl eq_refl).
Defined.

(** With a nonzero clear count, a channel that read 0 has ratio +0.0 and a
    channel equal to the clear count has ratio exactly 1.0 (shown on red;
    green and blue are computed the same way). *)
Theorem Measure_ratio_zero_and_one :
  forall (l : Light) (d : Dev) (c r g b : Z) (b1 b2 b3 b4 : Bus),
    ReadUint16 cmdReadClear (dev d) = ((c, None), b1) ->
    ReadUint16 cmdReadRed b1 = ((r, None), b2) ->
    ReadUint16 cmdReadGreen b2 = ((g, None), b3) ->
    ReadUint16 cmdReadBlue b3 = ((b, None), b4) ->
    c <> 0 ->
    let l' := snd (fst (Measure l d)) in
    (r = 0 -> R l' = float32_zero) /\ (r = c -> R l' = float32_one) /\
    (g = 0 -> G l' = float32_zero) /\ (g = c -> G l' = float32_one) /\
    (b = 0 -> B l' = float32_zero) /\ (b = c -> B l' = float32_one).
Proof.
  intros l d c r g b b1 b2 b3 b4 Hc Hr Hg Hb Hnz l'. subst l'.
  rewrite (Measure_ok d l c r g b b1 b2 b3 b4 Hc Hr Hg Hb). cbn [fst snd R G B].
  pose proof (ReadUint16_range _ _ _ _ _ Hc) as Hrc.
  assert (Hpos : 0 < c < 2 ^ 16) by lia.
  repeat split; intros ->;
    first [apply ratio_zero_channel; exact Hpos | apply ratio_self; exact Hpos].
Qed.

Lemma Measure_ratio_zero_and_one_witness :
  let d := mkDev (Sim.sensor 0x44 0x11 1234 0 1234 617) 44032 in
  let l := mkLight 7 float32_zero float32_zero float32_zero in
  R (snd (fst (Measure l d))) = float32_zero /\
  G (snd (fst (Measure l d))) = float32_one.
Proof.
  intros d l.
  set (b1 := snd (ReadUint16 cmdReadClear (dev d))).
  set (b2 := snd (ReadUint16 cmdReadRed b1)).
  set (b3 := snd (ReadUint16 cmdReadGreen b2)).
  set (b4 := snd (ReadUint16 cmdReadBlue b3)).
  destruct (Measure_ratio_zero_and_one l d 1234 0 1234 617 b1 b2 b3 b4
              eq_refl eq_refl eq_refl eq_refl ltac:(discriminate))
    as (Hr0 & _ & _ & Hg1 & _).
  split; [apply Hr0; reflexivity|apply Hg1; reflexivity].
Defined.

(** ** The polling loop of the utility *)

Lemma New_handle_bus (b b' : Bus) (d : Dev) (e : option error) :
  New b = ((Some d, e), b') -> dev d = b' /\ e = None.
Proof.
  unfold New, devReadUint8, devWriteUint8. cbn [dev maxCount].
  destruct (ReadUint8 cmdChipID b) as [[id err] b1]. cbn [dev].
  destruct err; [discriminate|].
  destruct (negb (id =? chipID) && negb (id =? chipIDAlt)); [discriminate|].
  destruct (WriteUint8 cmdEnable (Z.lor enablePower enableRGBC) b1) as [err b2].
  cbn [dev maxCount]. destruct err; [discriminate|].
  destruct (SetIntegrationTime (511 * time.Millisecond) (mkDev b2 0)) as [err d3].
  destruct err; [discriminate|]. intros H; inversion H; subst. split; reflexivity.
Qed.

Section Polling.

Variable Measure : Light -> M (option error * Light).

(** n successful measurements give n readings. *)
Lemma readings_length (n : nat) :
  forall d out dn, readings Measure n d = Some (out, dn) -> List.length out = n.
Proof.
  induction n as [|n IH]; intros d out dn; cbn [readings].
  - intros H; inversion H; reflexivity.
  - destruct (Measure (mkLight 0 float32_zero float32_zero float32_zero) d)
      as [[merr light] d1]. destruct merr as [e|]; [discriminate|].
    destruct (readings Measure n d1) as [[more d2]|] eqn:Hr; [|discriminate].
    intros H; inversion H; subst. cbn [List.length]. rewrite (IH _ _ _ Hr). reflexivity.
Qed.

(** With a ticker the loop is left only through a failed Measure: some
    number of measurements, at most one per tick, succeed and are printed
    in order, and the next one fails; its error and the handle it leaves
    are the loop's. *)
Lemma poll_ticker (ticks : nat) :
  forall out d err out' d',
    poll Measure ticks true out d = Some (err, out', d') ->
    exists (n : nat) (more : Stdout) (dn : Dev) (e : error) (l : Light),
      (n <= ticks)%nat /\
      readings Measure n d = Some (more, dn) /\
      Measure (mkLight 0 float32_zero float32_zero float32_zero) dn = ((Some e, l), d') /\
      err = Some e /\ out' = out ++ more.
Proof.
  induction ticks as [|k IH]; intros out d err out' d'; cbn [poll];
    destruct (Measure (mkLight 0 float32_zero float32_zero float32_zero) d)
      as [[merr light] d1] eqn:Hm; destruct merr as [e|]; cbn [negb]; intros H.
  - inversion H; subst. exists 0%nat, [], d, e, light.
    rewrite app_nil_r. repeat split; [lia|exact Hm].
  - discriminate.
  - inversion H; subst. exists 0%nat, [], d, e, light.
    rewrite app_nil_r. repeat split; [lia|exact Hm].
  - destruct (IH _ _ _ _ _ H) as (n & more & dn & e & l & Hn & Hr & Hf & He & Hout).
    exists (S n), (light :: more), dn, e, l. split; [lia|]. split.
    + cbn [readings]. rewrite Hm, Hr. reflexivity.
    + split; [exact Hf|]. split; [exact He|]. rewrite Hout, <- app_assoc. reflexivity.
Qed.

(** While the loop has not been left, every measurement so far, one more
    than the ticks, has succeeded. *)
Lemma poll_running (ticks : nat) :
  forall out d,
    poll Measure ticks true out d = None ->
    exists (more : Stdout) (dn : Dev), readings Measure (S ticks) d = Some (more, dn).
Proof.
  induction ticks as [|k IH]; intros out d; cbn [poll];
    destruct (Measure (mkLight 0 float32_zero float32_zero float32_zero) d)
      as [[merr light] d1] eqn:Hm; destruct merr as [e|]; cbn [negb]; intros H;
    try discriminate.
  - exists [light], d1. cbn [readings]. rewrite Hm. reflexivity.
  - destruct (IH _ _ H) as (more & dn & Hr).
    exists (light :: more), dn.
    change (readings Measure (S (S k)) d) with
      (let '((err, light), d) :=
         Measure (mkLight 0 float32_zero float32_zero float32_zero) d in
       match err with
       | Some _ => None
       | None => match readings Measure (S k) d with
                 | Some (out, d) => Some (light :: out, d)
                 | None => None
                 end
       end).
    rewrite Hm, Hr. reflexivity.
Qed.



Lemma read_valid (d d1 : Dev) (interval : time.Duration) (ticks : nat) :
  0 <= interval ->
  Valid d = ((true, None), d1) ->
  read Measure d interval ticks =
  match poll Measure ticks (negb (interval =? 0)) [] d1 with
  | None => None
  | Some (err, out, d') => Some (Done err, out, d')
  end.
Proof.
  intros Hi Hv. unfold read.
  replace (negb (interval =? 0) && (interval <=? 0)) with false.
  - rewrite Hv. reflexivity.
  - symmetry. destruct (Z.eqb_spec interval 0) as [->|Hn]; [reflexivity|].
    cbn [negb andb]. apply Z.leb_gt. lia.
Qed.

End Polling.

(** Without an interval, read after a Valid that says "ready" calls
    Measure once, on a zeroed Light: it returns Measure's error and prints
    nothing, or prints that one reading and returns nil. This holds however
    many times the ticker would fire. *)
Theorem read_one_shot :
  forall (Measure : Light -> M (option error * Light)) (d d1 d2 : Dev)
         (l : Light) (err : option error) (ticks : nat),
    Valid d = ((true, None), d1) ->
    Measure (mkLight 0 float32_zero float32_zero float32_zero) d1 = ((err, l), d2) ->
    read Measure d 0 ticks =
    Some (Done err, match err with Some _ => [] | None => [l] end, d2).
Proof.
  intros Measure d d1 d2 l err ticks Hv Hm.
  rewrite (read_valid Measure d d1 0 ticks ltac:(lia) Hv).
  destruct ticks; cbn [poll Z.eqb negb]; rewrite Hm; destruct err; reflexivity.
Qed.

Lemma read_one_shot_witness :
  let d := mkDev (Sim.sensor 0x44 0x11 1000 300 400 300) 44032 in
  exists l d2,
    read Tcs3472.Measure d 0 7 = Some (Done None, [l], d2) /\
    Int l = 1000 /\
    ops (dev d2) = [RdU8 0x93; RdU16 0xB4; RdU16 0xB6; RdU16 0xB8; RdU16 0xBA].
Proof.
  intros d.
  pose proof (read_one_shot Tcs3472.Measure d (snd (Valid d))
                (snd (Tcs3472.Measure (mkLight 0 float32_zero float32_zero float32_zero)
                                      (snd (Valid d))))
                _ None 7 eq_refl eq_refl) as H.
  do 2 eexists. split; [exact H|]. split; reflexivity.
Defined.

(** With a positive interval, read after a Valid that says "ready" never
    returns nil, and what it does is what its Measure calls do. When it
    returns, some number n of measurements, at most one per tick of the
    ticker, have succeeded and the next one has failed: the n readings, in
    order, are what was printed, the error of the failed Measure is the
    error returned, and the handle is as that Measure left it. As long as
    it has not returned, every Measure so far has succeeded. *)
Theorem read_polling_ends_on_error :
  forall (Measure : Light -> M (option error * Light)) (d d1 : Dev)
         (interval : time.Duration) (ticks : nat),
    0 < interval ->
    Valid d = ((true, None), d1) ->
    match read Measure d interval ticks with
    | Some (res, out, d') =>
      exists (n : nat) (dn : Dev) (e : error) (l : Light),
        (n <= ticks)%nat /\ List.length out = n /\
        readings Measure n d1 = Some (out, dn) /\
        Measure (mkLight 0 float32_zero float32_zero float32_zero) dn = ((Some e, l), d') /\
        res = Done (Some e)
    | None =>
      exists (out : Stdout) (dn : Dev), readings Measure (S ticks) d1 = Some (out, dn)
    end.
Proof.
  intros Measure d d1 interval ticks Hi Hv.
  rewrite (read_valid Measure d d1 interval ticks ltac:(lia) Hv).
  replace (negb (interval =? 0)) with true
    by (symmetry; apply negb_true_iff; apply Z.eqb_neq; lia).
  destruct (poll Measure ticks true [] d1) as [[[perr pout] pd]|] eqn:Hpoll.
  - destruct (poll_ticker Measure ticks _ _ _ _ _ Hpoll)
      as (n & more & dn & e & l & Hn & Hr & Hf & He & Hout).
    cbn [app] in Hout. subst.
    exists n, dn, e, l. split; [exact Hn|].
    split; [exact (readings_length Measure n _ _ _ Hr)|]. repeat split; assumption.
  - exact (poll_running Measure ticks _ _ Hpoll).
Qed.

Lemma read_polling_ends_on_error_witness :
  let d := mkDev (Sim.failing_at 9 (Sim.sensor 0x44 0x11 1000 300 400 300)) 44032 in
  match read Tcs3472.Measure d time.Second 5 with
  | Some (res, out, d') =>
    res = Done (Some (TransportError "i/o error")) /\
    map Int out = [1000; 1000] /\
    exists (n : nat) (dn : Dev) (e : error) (l : Light),
      (n <= 5)%nat /\ List.length out = n /\
      readings Tcs3472.Measure n (snd (Valid d)) = Some (out, dn) /\
      Tcs3472.Measure (mkLight 0 float32_zero float32_zero float32_zero) dn
        = ((Some e, l), d') /\
      res = Done (Some e)
  | None => False
  end.
Proof.
  intros d.
  pose proof (read_polling_ends_on_error Tcs3472.Measure d (snd (Valid d))
                time.Second 5 eq_refl eq_refl) as H.
  destruct (read Tcs3472.Measure d time.Second 5) as [[[res out] d']|] eqn:Hread.
  - split; [|split; [|exact H]]; vm_compute in Hread; inversion Hread; reflexivity.
  - vm_compute in Hread. discriminate Hread.
Defined.

(** ** The utility from start to exit *)

(** A negative interval makes read panic in time.NewTicker before it
    touches the sensor. The process dies with status 2 and Halt is never
    called: the bus is as New left it, with the sensor switched on. *)
Theorem negative_interval_panics :
  forall (Measure : Light -> M (option error * Light)) (Halt : M (option error))
         (f : Flags) (h : Host) (ticks : nat) (bus b' : Bus) (d : Dev),
    hostInit h = None ->
    i2cOpen h (i2c f) = inl bus ->
    New bus = ((Some d, None), b') ->
    i f < 0 ->
    read Measure d (i f) ticks
    = Some (Panic "non-positive interval for NewTicker", [], d) /\
    main Measure Halt f h ticks
    = Some (mkExit 2 [] ["panic: non-positive interval for NewTicker"%string], Some b') /\
    ops b' = ops bus ++ [RdU8 0x92; WrU8 0x80 3; WrU8 0x81 43].
Proof.
  intros Measure Halt f h ticks bus b' d Hh Ho Hn Hi.
  assert (Hread : read Measure d (i f) ticks
                  = Some (Panic "non-positive interval for NewTicker", [], d)).
  { unfold read.
    replace (negb (i f =? 0) && (i f <=? 0)) with true; [reflexivity|].
    symmetry. apply andb_true_iff. split.
    - apply negb_true_iff. apply Z.eqb_neq. lia.
    - apply Z.leb_le. lia. }
  split; [exact Hread|]. split.
  - unfold main, mainImpl. rewrite Hh, Ho, Hn, Hread.
    destruct (New_handle_bus bus b' d None Hn) as [-> _]. reflexivity.
  - destruct (New_ops bus) as (k & Hk & Hops & Hk3). rewrite Hn in Hops, Hk3.
    cbn [fst snd] in Hops, Hk3. rewrite (Hk3 ltac:(discriminate)) in Hops. exact Hops.
Qed.

Lemma negative_interval_panics_witness :
  let bus := Sim.sensor 0x44 0x11 1000 300 400 300 in
  let f := mkFlags "" (-1) false in
  let h := mkHost None (fun _ => inl bus) in
  option_map (fun r => (fst r, option_map ops (snd r)))
             (main Tcs3472.Measure Tcs3472.Halt f h 3)
  = Some (mkExit 2 [] ["panic: non-positive interval for NewTicker"%string],
          Some [RdU8 0x92; WrU8 0x80 3; WrU8 0x81 43]).
Proof.
  intros bus f h.
  destruct (negative_interval_panics Tcs3472.Measure Tcs3472.Halt f h 3 bus
              (snd (New bus)) (mkDev (snd (New bus)) 44032) eq_refl eq_refl eq_refl)
    as (_ & Hmain & Hops).
  - reflexivity.
  - rewrite Hmain. cbn [option_map fst snd]. rewrite Hops. reflexivity.
Defined.

(** Once New has given a handle and read has returned, the utility always
    calls Halt: the last transaction on the bus is the write of 0 to the
    enable register. The exit status is 0 only when read and Halt both
    returned nil; when both failed it is the error of read that is
    reported. What read printed stays on standard output. *)
Theorem utility_halts_after_read :
  forall (Measure : Light -> M (option error * Light))
         (f : Flags) (h : Host) (ticks : nat) (bus b' : Bus) (d d1 : Dev)
         (err : option error) (out : Stdout),
    hostInit h = None ->
    i2cOpen h (i2c f) = inl bus ->
    New bus = ((Some d, None), b') ->
    read Measure d (i f) ticks = Some (Done err, out, d1) ->
    let r := respond (dev d1) (log (dev d1)) (WrU8 0x80 0) in
    exists x bus_end,
      main Measure Tcs3472.Halt f h ticks = Some (x, Some bus_end) /\
      log bus_end = log (dev d1) ++ [(WrU8 0x80 0, r)] /\
      stdout x = out /\
      (status x = 0 <-> err = None /\ fault r = None) /\
      (status x = 0 \/ status x = 1) /\
      (forall e, err = Some e ->
                 stderr x = [("tcs3472: " ++ Error e ++ "." ++ String "010" "")%string]).
Proof.
  intros Measure f h ticks bus b' d d1 err out Hh Ho Hn Hread r.
  unfold main, mainImpl. rewrite Hh, Ho, Hn, Hread.
  unfold Halt, devWriteUint8, WriteUint8, Tx. cbn [fst snd dev log].
  change cmdEnable with 0x80. fold r. unfold to_error.
  destruct err as [e|]; [|destruct (fault r) as [msg|]]; cbn [option_map];
    do 2 eexists; (split; [reflexivity|]); cbn [status stdout stderr];
    (split; [reflexivity|]); (split; [reflexivity|]).
  - split; [|split; [right; reflexivity|]].
    + split; [discriminate|intros [H _]; discriminate H].
    + intros e0 H; inversion H; subst. reflexivity.
  - split; [|split; [right; reflexivity|discriminate]].
    split; [discriminate|intros [_ H]; discriminate H].
  - split; [|split; [left; reflexivity|discriminate]].
    split; [intros _; split; reflexivity|reflexivity].
Qed.

Lemma utility_halts_after_read_witness :
  let bus := Sim.failing_at 5 (Sim.sensor 0x44 0x11 1000 300 400 300) in
  let f := mkFlags "" 0 false in
  let h := mkHost None (fun _ => inl bus) in
  match main Tcs3472.Measure Tcs3472.Halt f h 0 with
  | Some (x, Some bus_end) =>
    ops bus_end = [RdU8 0x92; WrU8 0x80 3; WrU8 0x81 43; RdU8 0x93;
                   RdU16 0xB4; RdU16 0xB6; WrU8 0x80 0] /\
    status x = 1 /\ stdout x = [] /\
    stderr x = [("tcs3472: i/o error." ++ String "010" "")%string]
  | _ => False
  end.
Proof.
  intros bus f h.
  set (d0 := mkDev (snd (New bus)) 44032).
  set (dd := snd (Tcs3472.Measure (mkLight 0 float32_zero float32_zero float32_zero)
                                  (snd (Valid d0)))).
  assert (Hread : read Tcs3472.Measure d0 (i f) 0
                  = Some (Done (Some (TransportError "i/o error")), [], dd))
    by (vm_compute; reflexivity).
  destruct (utility_halts_after_read Tcs3472.Measure f h 0 bus (snd (New bus))
              d0 dd (Some (TransportError "i/o error")) []
              eq_refl eq_refl eq_refl Hread)
    as (x & bus_end & Hmain & Hlog & Hout' & Hst & _ & Herr).
  rewrite Hmain. split; [|split; [|split]].
  - unfold ops. rewrite Hlog. vm_compute. reflexivity.
  - vm_compute in Hmain. inversion Hmain. reflexivity.
  - exact Hout'.
  - exact (Herr _ eq_refl).
Defined.

(** When the set-up fails the utility exits with status 1 and the error on
    standard error, and neither read nor Halt runs. A failed host.Init or
    i2creg.Open leaves no bus; a failed New leaves the bus as New left it,
    so after a wrong chip ID the only transaction is the ID read. *)
Theorem utility_setup_failures :
  forall (Measure : Light -> M (option error * Light)) (Halt : M (option error))
         (f : Flags) (h : Host) (ticks : nat) (e : error),
    let report := [("tcs3472: " ++ Error e ++ "." ++ String "010" "")%string] in
    (hostInit h = Some e ->
     main Measure Halt f h ticks = Some (mkExit 1 [] report, None)) /\
    (hostInit h = None -> i2cOpen h (i2c f) = inr e ->
     main Measure Halt f h ticks = Some (mkExit 1 [] report, None)) /\
    (forall bus b', hostInit h = None -> i2cOpen h (i2c f) = inl bus ->
                    New bus = ((None, Some e), b') ->
                    main Measure Halt f h ticks = Some (mkExit 1 [] report, Some b')) /\
    (forall bus id b1, hostInit h = None -> i2cOpen h (i2c f) = inl bus ->
                       ReadUint8 cmdChipID bus = ((id, None), b1) ->
                       id <> chipID -> id <> chipIDAlt -> e = ErrChipID id ->
                       main Measure Halt f h ticks = Some (mkExit 1 [] report, Some b1) /\
                       ops b1 = ops bus ++ [RdU8 0x92]).
Proof.
  intros Measure Halt f h ticks e report. split; [|split; [|split]].
  - intros Hh. unfold main, mainImpl. rewrite Hh. reflexivity.
  - intros Hh Ho. unfold main, mainImpl. rewrite Hh, Ho. reflexivity.
  - intros bus b' Hh Ho Hn. unfold main, mainImpl. rewrite Hh, Ho, Hn. reflexivity.
  - intros bus id b1 Hh Ho Hrd H1 H2 ->. split.
    + unfold main, mainImpl. rewrite Hh, Ho, (New_wrong_id bus b1 id Hrd H1 H2).
      reflexivity.
    + exact (ReadUint8_ops _ _ _ _ Hrd).
Qed.

Lemma utility_setup_failures_witness :
  let bus := Sim.sensor 0x45 0x11 1000 300 400 300 in
  let f := mkFlags "" 0 false in
  let h := mkHost None (fun _ => inl bus) in
  option_map (fun r => (fst r, option_map ops (snd r)))
             (main Tcs3472.Measure Tcs3472.Halt f h 0)
  = Some (mkExit 1 [] [("tcs3472: tcs3472: unexpected chip ID 0x45." ++ String "010" "")%string],
          Some [RdU8 0x92]).
Proof.
  intros bus f h.
  destruct (utility_setup_failures Tcs3472.Measure Tcs3472.Halt f h 0 (ErrChipID 0x45))
    as (_ & _ & _ & Hid).
  destruct (Hid bus 0x45 (snd (ReadUint8 cmdChipID bus)) eq_refl eq_refl eq_refl)
    as (Hmain & Hops); [discriminate|discriminate|reflexivity|].
  rewrite Hmain. cbn [option_map fst snd]. rewrite Hops. reflexivity.
Defined.

(** ** The utility over the earlier revision of the driver *)




(** ** The skeleton *)

(** In the skeleton of the driver New sends one transaction, the read of
    the chip-ID register, and never enables the sensor; it returns a handle
    exactly when that read succeeded with 0x44 or 0x4D, and an error
    otherwise. *)
Theorem skeleton_New_only_identifies :
  forall b : Bus,
    let r := respond b (log b) (RdU8 0x92) in
    let id := uint8 (val r) in
    log (snd (Tcs3472Skeleton.New b)) = log b ++ [(RdU8 0x92, r)] /\
    ((fault r = None /\ (id = 0x44 \/ id = 0x4D)) ->
     fst (Tcs3472Skeleton.New b)
     = (Some (Tcs3472Skeleton.mkDev (snd (Tcs3472Skeleton.New b))), None)) /\
    (fault r = None -> id <> 0x44 -> id <> 0x4D ->
     fst (Tcs3472Skeleton.New b) = (None, Some (ErrChipID id))) /\
    (forall msg, fault r = Some msg ->
                 fst (Tcs3472Skeleton.New b) = (None, Some (TransportError msg))).
Proof.
  intros b r id. unfold Tcs3472Skeleton.New, ReadUint8, Tx.
  cbn [Tcs3472Skeleton.dev fst snd log]. change cmdChipID with 0x92.
  fold r. fold id. unfold to_error.
  split; [|split; [|split]].
  - destruct (fault r); cbn [option_map fst snd log];
      [|destruct (negb (id =? chipID) && negb (id =? chipIDAlt))]; reflexivity.
  - intros [Hf Hid]. rewrite Hf. cbn [option_map].
    assert (Hc : negb (id =? chipID) && negb (id =? chipIDAlt) = false).
    { destruct Hid as [H|H]; rewrite H; reflexivity. }
    rewrite Hc. reflexivity.
  - intros Hf H1 H2. rewrite Hf. cbn [option_map].
    apply Z.eqb_neq in H1, H2. change chipID with 0x44. change chipIDAlt with 0x4D.
    rewrite H1, H2. reflexivity.
  - intros msg Hf. rewrite Hf. reflexivity.
Qed.

Lemma skeleton_New_only_identifies_witness :
  (let b := Sim.sensor 0x4D 0 0 0 0 0 in
   exists d, fst (Tcs3472Skeleton.New b) = (Some d, None) /\
             ops (Tcs3472Skeleton.dev d) = [RdU8 0x92]) /\
  (let b := Sim.sensor 0x12 0 0 0 0 0 in
   fst (Tcs3472Skeleton.New b) = (None, Some (ErrChipID 0x12))).
Proof.
  split.
  - intros b. destruct (skeleton_New_only_identifies b) as (_ & Hok & _).
    eexists. split; [apply Hok; split; [reflexivity|right; reflexivity]|reflexivity].
  - intros b. destruct (skeleton_New_only_identifies b) as (_ & _ & Hbad & _).
    apply Hbad; [reflexivity|discriminate|discriminate].
Defined.

(** ** The ratios of Measure are ordinary numbers unless clear is 0 *)

Lemma digits2_pos_size (p : positive) : digits2_pos p = Pos.size p.
Proof. induction p; cbn; congruence. Qed.

Lemma size_log2 (p : positive) : Z.pos (Pos.size p) = Z.log2 (Z.pos p) + 1.
Proof. destruct p; cbn; lia. Qed.

Lemma size_of_range (p : positive) (k : Z) :
  0 < k -> 2 ^ (k - 1) <= Z.pos p < 2 ^ k -> Z.pos (Pos.size p) = k.
Proof.
  intros Hk H. rewrite size_log2.
  rewrite (Z.log2_unique (Z.pos p) (k - 1)); [lia|lia|].
  replace (Z.succ (k - 1)) with k by lia. exact H.
Qed.

Lemma range_of_size (p : positive) (k : Z) :
  Z.pos (Pos.size p) = k -> 2 ^ (k - 1) <= Z.pos p < 2 ^ k.
Proof.
  intros H. rewrite size_log2 in H.
  pose proof (Z.log2_spec (Z.pos p) ltac:(lia)) as Hs.
  replace (k - 1) with (Z.log2 (Z.pos p)) by lia.
  replace k with (Z.succ (Z.log2 (Z.pos p))) by lia. exact Hs.
Qed.

Lemma loc_of_record (m : Z) (l : location) :
  loc_of_shr_record (shr_record_of_loc m l) = l /\ shr_m (shr_record_of_loc m l) = m.
Proof. destruct l as [|[| |]]; split; reflexivity. Qed.

Lemma round_nearest_even_cases (m : Z) (l : location) :
  round_nearest_even m l = m \/ round_nearest_even m l = m + 1.
Proof.
  destruct l as [|[| |]]; cbn; auto. destruct (Z.even m); auto.
Qed.

(** No shift when the significand has at most 24 digits. *)
Lemma shr_fexp_keep (p : positive) (e : Z) (l : location) :
  Z.pos (Pos.size p) <= 24 -> -149 <= e ->
  shr_fexp 24 128 (Z.pos p) e l = (shr_record_of_loc (Z.pos p) l, e).
Proof.
  intros Hs He. unfold shr_fexp, fexp, emin, Zdigits2. rewrite digits2_pos_size.
  assert (Hn : Z.max (Z.pos (Pos.size p) + e - 24) (3 - 128 - 24) - e <= 0) by lia.
  unfold shr. destruct (Z.max (Z.pos (Pos.size p) + e - 24) (3 - 128 - 24) - e); try reflexivity.
  lia.
Qed.

Lemma shr_fexp_one (p : positive) (e : Z) (l : location) :
  Z.pos (Pos.size p) = 25 -> -149 <= e ->
  shr_fexp 24 128 (Z.pos p) e l = (shr_1 (shr_record_of_loc (Z.pos p) l), e + 1).
Proof.
  intros Hs He. unfold shr_fexp, fexp, emin, Zdigits2. rewrite digits2_pos_size, Hs.
  replace (Z.max (25 + e - 24) (3 - 128 - 24) - e) with 1 by lia.
  reflexivity.
Qed.

Lemma shr_1_half (p : positive) (l : location) :
  2 <= Z.pos p -> shr_m (shr_1 (shr_record_of_loc (Z.pos p) l)) = Z.pos p / 2.
Proof.
  intros Hp.
  assert (H : shr_m (shr_1 (shr_record_of_loc (Z.pos p) l)) = Z.div2 (Z.pos p)).
  { destruct l as [|[| |]]; destruct p as [q|q|]; reflexivity || lia. }
  rewrite H. apply Z.div2_div.
Qed.

Lemma round_last_stage (m e : Z) :
  2 ^ 23 <= m <= 2 ^ 24 -> -149 <= e <= 100 ->
  exists m' e',
    (let '(mrs, e'') := shr_fexp 24 128 m e loc_Exact in
     match shr_m mrs with
     | Z0 => S754_zero false
     | Z.pos m0 => if e'' <=? 128 - 24 then S754_finite false m0 e'' else S754_infinity false
     | Z.neg _ => S754_nan
     end) = S754_finite false m' e'.
Proof.
  intros Hm He. destruct m as [|p|p]; try lia.
  destruct (Z_lt_dec (Z.pos p) (2 ^ 24)) as [Hlt|Hge].
  - rewrite shr_fexp_keep; [|rewrite (size_of_range p 24); lia|lia].
    cbn [shr_record_of_loc shr_m].
    replace (e <=? 128 - 24) with true by (symmetry; apply Z.leb_le; lia). eauto.
  - assert (Hp : Z.pos p = 2 ^ 24) by lia.
    rewrite shr_fexp_one; [|rewrite (size_of_range p 25); lia|lia].
    rewrite shr_1_half by lia. rewrite Hp. change (2 ^ 24 / 2) with (Z.pos 8388608).
    replace (e + 1 <=? 128 - 24) with true by (symmetry; apply Z.leb_le; lia). eauto.
Qed.

Lemma binary_round_aux_finite (p : positive) (e : Z) (l : location) :
  2 ^ 23 <= Z.pos p < 2 ^ 25 -> -149 <= e <= 90 ->
  exists m' e', binary_round_aux 24 128 false (Z.pos p) e l = S754_finite false m' e'.
Proof.
  intros Hp He. unfold binary_round_aux.
  destruct (Z_lt_dec (Z.pos p) (2 ^ 24)) as [Hlt|Hge].
  - rewrite shr_fexp_keep; [|rewrite (size_of_range p 24); lia|lia].
    destruct (loc_of_record (Z.pos p) l) as [-> ->].
    apply round_last_stage; [|lia].
    destruct (round_nearest_even_cases (Z.pos p) l) as [-> | ->]; lia.
  - rewrite shr_fexp_one; [|rewrite (size_of_range p 25); lia|lia].
    pose proof (shr_1_half p l ltac:(lia)) as Hh.
    assert (Hr : 2 ^ 23 <= Z.pos p / 2 < 2 ^ 24).
    { split.
      - apply Z.div_le_lower_bound; lia.
      - apply Z.div_lt_upper_bound; lia. }
    rewrite Hh. apply round_last_stage; [|lia].
    destruct (round_nearest_even_cases (Z.pos p / 2)
                (loc_of_shr_record (shr_1 (shr_record_of_loc (Z.pos p) l)))) as [-> | ->]; lia.
Qed.

Lemma SFdiv_counts (m1 m2 : positive) (e1 e2 : Z) :
  Pos.size m1 = 24%positive -> Pos.size m2 = 24%positive ->
  -23 <= e1 <= -8 -> -23 <= e2 <= -8 ->
  exists m e, SFdiv 24 128 (S754_finite false m1 e1) (S754_finite false m2 e2)
              = S754_finite false m e.
Proof.
  intros Hs1 Hs2 He1 He2. unfold SFdiv, SFdiv_core_binary, Zdigits2, fexp, emin.
  rewrite (digits2_pos_size m1), (digits2_pos_size m2), Hs1, Hs2. cbn [xorb].
  replace (Z.min (Z.max (24 + e1 - (24 + e2) - 24) (3 - 128 - 24)) (e1 - e2))
    with (e1 - e2 - 24) by lia.
  replace (e1 - e2 - (e1 - e2 - 24)) with 24 by lia.
  pose proof (range_of_size m1 24 ltac:(rewrite Hs1; reflexivity)) as Hr1.
  pose proof (range_of_size m2 24 ltac:(rewrite Hs2; reflexivity)) as Hr2.
  change (24 - 1) with 23 in Hr1, Hr2.
  rewrite Z.shiftl_mul_pow2 by lia.
  pose proof (Z_div_mod (Z.pos m1 * 2 ^ 24) (Z.pos m2) ltac:(lia)) as Hdm.
  destruct (Z.div_eucl (Z.pos m1 * 2 ^ 24) (Z.pos m2)) as [q r].
  destruct Hdm as [Hq Hrem].
  assert (Hqr : 2 ^ 23 <= q < 2 ^ 25) by nia.
  destruct q as [|q|q]; try lia.
  apply binary_round_aux_finite; lia.
Qed.

Lemma float32_count_from_spec (n : nat) :
  forall x, float32_count_from n x = true ->
            forall y, x <= y < x + Z.of_nat n -> float32_count (float32_of_uint16 y) = true.
Proof.
  induction n as [|n IH]; intros x Hall y Hy.
  - lia.
  - cbn [float32_count_from] in Hall. apply andb_true_iff in Hall.
    destruct Hall as [Hx Hrest].
    destruct (Z.eq_dec y x) as [->|Hne]; [exact Hx|].
    apply (IH (x + 1) Hrest). lia.
Qed.

(** Every count from 1 to 65535 converts to a float32 with a full 24-bit
    significand. *)
Lemma float32_of_uint16_count (x : Z) :
  0 < x < 2 ^ 16 -> float32_count (float32_of_uint16 x) = true.
Proof.
  intros Hx. apply (float32_count_from_spec (Z.to_nat 65535) 1).
  - vm_compute. reflexivity.
  - rewrite Z2Nat.id by lia. change (2 ^ 16) with 65536 in Hx. lia.
Qed.

Lemma ratio_ordinary (r c : Z) :
  0 <= r < 2 ^ 16 -> 0 < c < 2 ^ 16 ->
  float32_ordinary (float32_div (float32_of_uint16 r) (float32_of_uint16 c)) = true.
Proof.
  intros Hr Hc. destruct (Z.eq_dec r 0) as [->|Hnz].
  - rewrite ratio_zero_channel by exact Hc. reflexivity.
  - pose proof (float32_of_uint16_count r ltac:(lia)) as Hfr.
    pose proof (float32_of_uint16_count c Hc) as Hfc.
    unfold float32_div.
    destruct (float32_of_uint16 r) as [s|s| |s m1 e1]; try discriminate.
    destruct (float32_of_uint16 c) as [t|t| |t m2 e2]; try discriminate.
    destruct s, t; try discriminate. cbn [float32_count] in Hfr, Hfc.
    apply andb_true_iff in Hfr, Hfc. destruct Hfr as [Hfr Hr2], Hfc as [Hfc Hc2].
    apply andb_true_iff in Hfr, Hfc. destruct Hfr as [Hr0 Hr1], Hfc as [Hc0 Hc1].
    apply Pos.eqb_eq in Hr0, Hc0. apply Z.leb_le in Hr1, Hr2, Hc1, Hc2.
    destruct (SFdiv_counts m1 m2 e1 e2 Hr0 Hc0 ltac:(lia) ltac:(lia)) as (m & e & ->).
    reflexivity.
Qed.

Lemma ratio_not_ordinary (r : Z) :
  0 <= r < 2 ^ 16 ->
  float32_ordinary (float32_div (float32_of_uint16 r) (float32_of_uint16 0)) = false.
Proof.
  intros Hr. rewrite (ratio_clear_zero r Hr). destruct (r =? 0); reflexivity.
Qed.

(** After a Measure whose four reads succeeded, each of R, G and B is an
    ordinary non-negative number (+0 or a positive finite float32) exactly
    when the clear count is not 0: NaN and infinity come from a clear count
    of 0 and from nothing else, and no ratio is ever negative. *)
Theorem Measure_ratios_ordinary :
  forall (l : Light) (d : Dev) (c r g b : Z) (b1 b2 b3 b4 : Bus),
    ReadUint16 cmdReadClear (dev d) = ((c, None), b1) ->
    ReadUint16 cmdReadRed b1 = ((r, None), b2) ->
    ReadUint16 cmdReadGreen b2 = ((g, None), b3) ->
    ReadUint16 cmdReadBlue b3 = ((b, None), b4) ->
    let l' := snd (fst (Measure l d)) in
    float32_ordinary (R l') = negb (c =? 0) /\
    float32_ordinary (G l') = negb (c =? 0) /\
    float32_ordinary (B l') = negb (c =? 0).
Proof.
  intros l d c r g b b1 b2 b3 b4 Hc Hr Hg Hb l'. subst l'.
  rewrite (Measure_ok d l c r g b b1 b2 b3 b4 Hc Hr Hg Hb). cbn [fst snd R G B].
  pose proof (ReadUint16_range _ _ _ _ _ Hc) as Hrc.
  pose proof (ReadUint16_range _ _ _ _ _ Hr) as Hrr.
  pose proof (ReadUint16_range _ _ _ _ _ Hg) as Hrg.
  pose proof (ReadUint16_range _ _ _ _ _ Hb) as Hrb.
  destruct (Z.eqb_spec c 0) as [->|Hnz]; cbn [negb].
  - rewrite !ratio_not_ordinary by assumption. repeat split.
  - rewrite !ratio_ordinary by lia. repeat split.
Qed.

Lemma Measure_ratios_ordinary_witness :
  let d := mkDev (Sim.sensor 0x44 0x11 3 65535 1 0) 44032 in
  let l := mkLight 7 float32_zero float32_zero float32_zero in
  fst (Measure l d) =
    (None, mkLight 3 (S754_finite false 11184640 (-9))
                     (S754_finite false 11184811 (-25)) float32_zero) /\
  float32_ordinary (R (snd (fst (Measure l d)))) = true.
Proof.
  intros d l.
  set (b1 := snd (ReadUint16 cmdReadClear (dev d))).
  set (b2 := snd (ReadUint16 cmdReadRed b1)).
  set (b3 := snd (ReadUint16 cmdReadGreen b2)).
  set (b4 := snd (ReadUint16 cmdReadBlue b3)).
  destruct (Measure_ratios_ordinary l d 3 65535 1 0 b1 b2 b3 b4
              eq_refl eq_refl eq_refl eq_refl) as (HR & _).
  split; [reflexivity|exact HR].
Defined.

(** ** The ratios of Measure against 1 *)

Lemma pow2_step (e : Z) : e <= -1 -> 2 ^ (- e) = 2 * 2 ^ (- (e + 1)).
Proof.
  intros He. replace (- e) with (Z.succ (- (e + 1))) by lia.
  rewrite Z.pow_succ_r by lia. reflexivity.
Qed.

(** The last stage keeps the value: the significand is kept, or halved
    with the exponent raised by one. *)
Lemma round_last_stage_value (m e : Z) :
  2 ^ 23 <= m <= 2 ^ 24 -> -149 <= e <= -1 ->
  exists m' e',
    (let '(mrs, e'') := shr_fexp 24 128 m e loc_Exact in
     match shr_m mrs with
     | Z0 => S754_zero false
     | Z.pos m0 => if e'' <=? 128 - 24 then S754_finite false m0 e'' else S754_infinity false
     | Z.neg _ => S754_nan
     end) = S754_finite false m' e' /\
    e' <= 0 /\
    (forall k, m <= k * 2 ^ (- e) -> Z.pos m' <= k * 2 ^ (- e')) /\
    (forall k, k * 2 ^ (- e) <= m -> k * 2 ^ (- e') <= Z.pos m').
Proof.
  intros Hm He. destruct m as [|p|p]; try lia.
  destruct (Z_lt_dec (Z.pos p) (2 ^ 24)) as [Hlt|Hge].
  - rewrite shr_fexp_keep; [|rewrite (size_of_range p 24); lia|lia].
    cbn [shr_record_of_loc shr_m].
    replace (e <=? 128 - 24) with true by (symmetry; apply Z.leb_le; lia).
    exists p, e. repeat split; auto; lia.
  - assert (Hp : Z.pos p = 2 ^ 24) by lia.
    rewrite shr_fexp_one; [|rewrite (size_of_range p 25); lia|lia].
    rewrite shr_1_half by lia. rewrite Hp. change (2 ^ 24 / 2) with (Z.pos 8388608).
    replace (e + 1 <=? 128 - 24) with true by (symmetry; apply Z.leb_le; lia).
    exists 8388608%positive, (e + 1). split; [reflexivity|]. split; [lia|].
    rewrite (pow2_step e) by lia.
    pose proof (Z.pow_pos_nonneg 2 (- (e + 1)) ltac:(lia) ltac:(lia)) as Hpos.
    split; intros k Hk; change (2 ^ 24) with (2 * Z.pos 8388608) in Hk; nia.
Qed.

(** Rounding a quotient does not carry it across 1: below 1 it stays at
    most 1, from 1 upwards it stays at least 1. *)
Lemma binary_round_aux_one (p : positive) (e : Z) (l : location) :
  2 ^ 23 <= Z.pos p < 2 ^ 25 -> -149 <= e <= -2 ->
  exists m' e',
    binary_round_aux 24 128 false (Z.pos p) e l = S754_finite false m' e' /\
    e' <= 0 /\
    (Z.pos p < 2 ^ (- e) -> Z.pos m' <= 2 ^ (- e')) /\
    (2 ^ (- e) <= Z.pos p -> 2 ^ (- e') <= Z.pos m').
Proof.
  intros Hp He. unfold binary_round_aux.
  destruct (Z_lt_dec (Z.pos p) (2 ^ 24)) as [Hlt|Hge].
  - rewrite shr_fexp_keep; [|rewrite (size_of_range p 24); lia|lia].
    destruct (loc_of_record (Z.pos p) l) as [-> ->].
    set (mr := round_nearest_even (Z.pos p) l).
    assert (Hmr : mr = Z.pos p \/ mr = Z.pos p + 1) by apply round_nearest_even_cases.
    destruct (round_last_stage_value mr e ltac:(lia) ltac:(lia))
      as (m' & e' & Heq & He' & Hup & Hlo).
    exists m', e'. split; [exact Heq|]. split; [exact He'|]. split.
    + intros Hlt1. specialize (Hup 1). rewrite !Z.mul_1_l in Hup. apply Hup. lia.
    + intros Hge1. specialize (Hlo 1). rewrite !Z.mul_1_l in Hlo. apply Hlo. lia.
  - rewrite shr_fexp_one; [|rewrite (size_of_range p 25); lia|lia].
    pose proof (shr_1_half p l ltac:(lia)) as Hh.
    assert (Hr : 2 ^ 23 <= Z.pos p / 2 < 2 ^ 24).
    { split.
      - apply Z.div_le_lower_bound; lia.
      - apply Z.div_lt_upper_bound; lia. }
    rewrite Hh.
    set (mr := round_nearest_even (Z.pos p / 2)
                 (loc_of_shr_record (shr_1 (shr_record_of_loc (Z.pos p) l)))).
    assert (Hmr : mr = Z.pos p / 2 \/ mr = Z.pos p / 2 + 1) by apply round_nearest_even_cases.
    destruct (round_last_stage_value mr (e + 1) ltac:(lia) ltac:(lia))
      as (m' & e' & Heq & He' & Hup & Hlo).
    exists m', e'. split; [exact Heq|]. split; [exact He'|].
    pose proof (pow2_step e ltac:(lia)) as Hpow.
    pose proof (Z.pow_pos_nonneg 2 (- (e + 1)) ltac:(lia) ltac:(lia)) as Hpos.
    split.
    + intros Hlt1. specialize (Hup 1). rewrite !Z.mul_1_l in Hup. apply Hup.
      assert (Z.pos p / 2 < 2 ^ (- (e + 1))) by (apply Z.div_lt_upper_bound; lia).
      lia.
    + intros Hge1. specialize (Hlo 1). rewrite !Z.mul_1_l in Hlo. apply Hlo.
      assert (2 ^ (- (e + 1)) <= Z.pos p / 2) by (apply Z.div_le_lower_bound; lia).
      lia.
Qed.

(** The quotient of two counts, against 1. *)
Lemma SFdiv_counts_one (m1 m2 : positive) (e1 e2 : Z) :
  Pos.size m1 = 24%positive -> Pos.size m2 = 24%positive ->
  -23 <= e1 <= -8 -> -23 <= e2 <= -8 ->
  exists m e,
    SFdiv 24 128 (S754_finite false m1 e1) (S754_finite false m2 e2) = S754_finite false m e /\
    e <= 0 /\
    (Z.pos m1 * 2 ^ (- e2) < Z.pos m2 * 2 ^ (- e1) -> Z.pos m <= 2 ^ (- e)) /\
    (Z.pos m2 * 2 ^ (- e1) <= Z.pos m1 * 2 ^ (- e2) -> 2 ^ (- e) <= Z.pos m).
Proof.
  intros Hs1 Hs2 He1 He2. unfold SFdiv, SFdiv_core_binary, Zdigits2, fexp, emin.
  rewrite (digits2_pos_size m1), (digits2_pos_size m2), Hs1, Hs2. cbn [xorb].
  replace (Z.min (Z.max (24 + e1 - (24 + e2) - 24) (3 - 128 - 24)) (e1 - e2))
    with (e1 - e2 - 24) by lia.
  replace (e1 - e2 - (e1 - e2 - 24)) with 24 by lia.
  pose proof (range_of_size m1 24 ltac:(rewrite Hs1; reflexivity)) as Hr1.
  pose proof (range_of_size m2 24 ltac:(rewrite Hs2; reflexivity)) as Hr2.
  change (24 - 1) with 23 in Hr1, Hr2.
  rewrite Z.shiftl_mul_pow2 by lia.
  pose proof (Z_div_mod (Z.pos m1 * 2 ^ 24) (Z.pos m2) ltac:(lia)) as Hdm.
  destruct (Z.div_eucl (Z.pos m1 * 2 ^ 24) (Z.pos m2)) as [q r].
  destruct Hdm as [Hq Hrem].
  assert (Hqr : 2 ^ 23 <= q < 2 ^ 25) by nia.
  destruct q as [|q|q]; try lia.
  destruct (binary_round_aux_one q (e1 - e2 - 24) (new_location (Z.pos m2) r)
              ltac:(lia) ltac:(lia)) as (m & e & Heq & He & Hup & Hlo).
  exists m, e. split; [exact Heq|]. split; [exact He|].
  assert (Hpw : 2 ^ (- (e1 - e2 - 24)) * 2 ^ (- e2) = 2 ^ 24 * 2 ^ (- e1)).
  { rewrite <- !Z.pow_add_r by lia. f_equal. lia. }
  pose proof (Z.pow_pos_nonneg 2 (- e1) ltac:(lia) ltac:(lia)) as Hp1.
  pose proof (Z.pow_pos_nonneg 2 (- e2) ltac:(lia) ltac:(lia)) as Hp2.
  pose proof (Z.pow_pos_nonneg 2 (- (e1 - e2 - 24)) ltac:(lia) ltac:(lia)) as Hp3.
  set (A := 2 ^ (- e1)) in *. set (C := 2 ^ (- e2)) in *.
  set (D := 2 ^ (- (e1 - e2 - 24))) in *.
  split.
  - intros Hlt. apply Hup. apply Z.nle_gt. intros Hge.
    assert (H1 : D * Z.pos m2 <= Z.pos m1 * 2 ^ 24) by nia.
    assert (H2 : D * C * Z.pos m2 <= Z.pos m1 * 2 ^ 24 * C) by nia.
    rewrite Hpw in H2. nia.
  - intros Hge. apply Hlo. apply Z.nlt_ge. intros Hlt.
    assert (H1 : Z.pos m1 * 2 ^ 24 < Z.pos m2 * D) by nia.
    assert (H2 : Z.pos m1 * 2 ^ 24 * C < Z.pos m2 * (D * C)) by nia.
    rewrite Hpw in H2. nia.
Qed.

(** The form and the value of a converted count, together. *)
Lemma float32_of_uint16_form (x : Z) :
  0 < x < 2 ^ 16 ->
  exists m e, float32_of_uint16 x = S754_finite false m e /\
              Pos.size m = 24%positive /\ -23 <= e <= -8 /\
              Z.pos m = x * 2 ^ (- e).
Proof.
  intros Hx. pose proof (float32_of_uint16_count x Hx) as Hc.
  pose proof (float32_of_uint16_exact x ltac:(lia)) as Hh.
  destruct (float32_of_uint16 x) as [s|s| |s m e]; try discriminate.
  destruct s; try discriminate. cbn [float32_count float32_holds] in Hc, Hh.
  apply andb_true_iff in Hc. destruct Hc as [Hc He2].
  apply andb_true_iff in Hc. destruct Hc as [Hs He1].
  apply andb_true_iff in Hh. destruct Hh as [Hh _].
  apply andb_true_iff in Hh. destruct Hh as [Hh _].
  apply andb_true_iff in Hh. destruct Hh as [_ Hv].
  apply Pos.eqb_eq in Hs. apply Z.leb_le in He1, He2. apply Z.eqb_eq in Hv.
  exists m, e. repeat split; auto.
Qed.

Lemma ratio_vs_one (r c : Z) :
  0 < r < 2 ^ 16 -> 0 < c < 2 ^ 16 ->
  (r < c -> float32_le_one (float32_div (float32_of_uint16 r) (float32_of_uint16 c)) = true) /\
  (c <= r -> float32_ge_one (float32_div (float32_of_uint16 r) (float32_of_uint16 c)) = true).
Proof.
  intros Hr Hc.
  destruct (float32_of_uint16_form r Hr) as (m1 & e1 & -> & Hs1 & He1 & Hv1).
  destruct (float32_of_uint16_form c Hc) as (m2 & e2 & -> & Hs2 & He2 & Hv2).
  unfold float32_div.
  destruct (SFdiv_counts_one m1 m2 e1 e2 Hs1 Hs2 He1 He2) as (m & e & -> & He & Hup & Hlo).
  pose proof (Z.pow_pos_nonneg 2 (- e1) ltac:(lia) ltac:(lia)) as Hp1.
  pose proof (Z.pow_pos_nonneg 2 (- e2) ltac:(lia) ltac:(lia)) as Hp2.
  rewrite Hv1, Hv2 in Hup, Hlo. cbn [float32_le_one float32_ge_one].
  split.
  - intros Hlt. apply andb_true_iff. split; [apply Z.leb_le; exact He|].
    apply Z.leb_le. apply Hup. nia.
  - intros Hge. apply orb_true_iff. right. apply Z.leb_le. apply Hlo. nia.
Qed.

Lemma ratio_le_one (r c : Z) :
  0 <= r < 2 ^ 16 -> 0 < c < 2 ^ 16 -> r <= c ->
  float32_le_one (float32_div (float32_of_uint16 r) (float32_of_uint16 c)) = true.
Proof.
  intros Hr Hc Hle. destruct (Z.eq_dec r 0) as [->|Hnz].
  - rewrite ratio_zero_channel by exact Hc. reflexivity.
  - destruct (Z.eq_dec r c) as [->|Hne].
    + rewrite ratio_self by exact Hc. reflexivity.
    + apply (ratio_vs_one r c); lia.
Qed.

Lemma ratio_ge_one (r c : Z) :
  0 <= r < 2 ^ 16 -> 0 < c < 2 ^ 16 -> c <= r ->
  float32_ge_one (float32_div (float32_of_uint16 r) (float32_of_uint16 c)) = true.
Proof. intros Hr Hc Hle. apply (ratio_vs_one r c); lia. Qed.

(** After a Measure whose four reads succeeded with a nonzero clear count,
    a channel that does not exceed the clear count has a ratio of at most
    1, and a channel that is not below it has a ratio of at least 1:
    nothing is clamped. *)
Theorem Measure_ratio_against_one :
  forall (l : Light) (d : Dev) (c r g b : Z) (b1 b2 b3 b4 : Bus),
    ReadUint16 cmdReadClear (dev d) = ((c, None), b1) ->
    ReadUint16 cmdReadRed b1 = ((r, None), b2) ->
    ReadUint16 cmdReadGreen b2 = ((g, None), b3) ->
    ReadUint16 cmdReadBlue b3 = ((b, None), b4) ->
    c <> 0 ->
    let l' := snd (fst (Measure l d)) in
    (r <= c -> float32_le_one (R l') = true) /\
    (c <= r -> float32_ge_one (R l') = true) /\
    (g <= c -> float32_le_one (G l') = true) /\
    (c <= g -> float32_ge_one (G l') = true) /\
    (b <= c -> float32_le_one (B l') = true) /\
    (c <= b -> float32_ge_one (B l') = true).
Proof.
  intros l d c r g b b1 b2 b3 b4 Hc Hr Hg Hb Hnz l'. subst l'.
  rewrite (Measure_ok d l c r g b b1 b2 b3 b4 Hc Hr Hg Hb). cbn [fst snd R G B].
  pose proof (ReadUint16_range _ _ _ _ _ Hc) as Hrc.
  pose proof (ReadUint16_range _ _ _ _ _ Hr) as Hrr.
  pose proof (ReadUint16_range _ _ _ _ _ Hg) as Hrg.
  pose proof (ReadUint16_range _ _ _ _ _ Hb) as Hrb.
  assert (Hpos : 0 < c < 2 ^ 16) by lia.
  repeat split; intros Hcmp;
    first [apply ratio_le_one; assumption | apply ratio_ge_one; assumption].
Qed.

Lemma Measure_ratio_against_one_witness :
  let d := mkDev (Sim.sensor 0x44 0x11 1000 300 1000 1001) 44032 in
  let l := mkLight 7 float32_zero float32_zero float32_zero in
  float32_le_one (R (snd (fst (Measure l d)))) = true /\
  float32_ge_one (B (snd (fst (Measure l d)))) = true /\
  B (snd (fst (Measure l d))) = S754_finite false 8396997 (-23).
Proof.
  intros d l.
  set (b1 := snd (ReadUint16 cmdReadClear (dev d))).
  set (b2 := snd (ReadUint16 cmdReadRed b1)).
  set (b3 := snd (ReadUint16 cmdReadGreen b2)).
  set (b4 := snd (ReadUint16 cmdReadBlue b3)).
  destruct (Measure_ratio_against_one l d 1000 300 1000 1001 b1 b2 b3 b4
              eq_refl eq_refl eq_refl eq_refl ltac:(discriminate))
    as (HR & _ & _ & _ & _ & HB).
  split; [apply HR; discriminate|]. split; [apply HB; discriminate|].
  vm_compute. reflexivity.
Defined.
